(** * TokenMetric backend: ledger, withdrawal queue and unit conversion

    A shallow embedding of the accounting core of the TokenMetric backend
    ([backend/app/blockchain.py], [backend/app/models.py] and the route
    handlers of [backend/app/routes/]) together with the properties of the
    specification that concern it.

    Conventions of the embedding:
    - a Python exception is a value of [Exn]; a call that may raise returns a
      [Result];
    - a route handler is a function from the committed state of the world to
      a result and the next committed state (an exception that leaves the
      handler before [db.commit()] leaves the state as it was at the last
      commit);
    - [decimal.Decimal] values that reach [to_wei] / [from_wei] follow the
      arithmetic of the default decimal context (28 significant digits,
      ROUND_HALF_EVEN, exponent limits +-999999);
    - amounts stored in the [Numeric(36, 18)] columns of the ledger are exact
      rationals: what the column type and the database engine do to a value
      is outside the handlers. *)

From Stdlib Require Import ZArith QArith List String Bool Lia Lqa Znumtheory.
From Stdlib Require DecimalString.
Import ListNotations.

Local Open Scope Z_scope.

(* ================================================================== *)
(** ** Exceptions and results *)

(** The exceptions the modelled code raises or lets through.  The first three
    are signals of the decimal module that the default context traps;
    [BlockchainError] and [TransactionFailedError] are declared in
    [blockchain.py]; [HTTPException] is FastAPI's. *)
Inductive Exn : Type :=
| Overflow
| DivisionByZero
| InvalidOperation
| TypeError
| NameError (name : string)
| AttributeError (msg : string)
| BlockchainError (msg : string)
| TransactionFailedError (msg : string)
| TimeExhausted
| Web3Error (msg : string)
| RequestValidationError
| HTTPException (status_code : Z) (detail : string).

Inductive Result (A : Type) : Type :=
| Ok (a : A)
| Raise (e : Exn).

Arguments Ok {A} a.
Arguments Raise {A} e.

Definition bind {A B : Type} (r : Result A) (k : A -> Result B) : Result B :=
  match r with
  | Ok a => k a
  | Raise e => Raise e
  end.

Notation "x <- r ;; k" := (bind r (fun x => k))
  (at level 61, r at next level, right associativity).

(* ================================================================== *)
(** ** decimal.Decimal under the default context *)

Module PyDecimal.

(** A finite [Decimal(sign, int, exp)] is kept as the signed coefficient
    [(-1)^sign * int] and the exponent; its value is [coef * 10 ^ expo].
    (A negative zero is not told apart from zero: both compare equal and
    convert to the integer 0.) *)
Record Decimal : Type := mkDecimal { coef : Z; expo : Z }.

(** [decimal.DefaultContext]: prec=28, rounding=ROUND_HALF_EVEN,
    Emin=-999999, Emax=999999, clamp=0, traps Overflow, DivisionByZero and
    InvalidOperation. *)
Definition prec : Z := 28.
Definition Emax : Z := 999999.
Definition Emin : Z := -999999.
Definition Etiny : Z := Emin - prec + 1.
Definition Etop : Z := Emax - prec + 1.

(** [len(str(n))] for [n >= 0]. *)
Fixpoint ndigits_fuel (fuel : nat) (n : Z) : Z :=
  match fuel with
  | O => 1
  | S fuel' => if n <? 10 then 1 else 1 + ndigits_fuel fuel' (n / 10)
  end.

Definition ndigits (n : Z) : Z := ndigits_fuel (S (Z.to_nat (Z.log2 n))) n.

(** The rounding functions look at the digit string [c] of the coefficient
    and at the number [digits] of leading digits to keep.  With
    [k = len(c) - digits] digits dropped and [r = c mod 10^k] their value:
    [c[digits] in '56789'] is [5 * 10^(k-1) <= r], [_all_zeros(c, digits)]
    is [r = 0], [_exact_half(c, digits)] is [r = 5 * 10^(k-1)] and
    [c[digits-1] in '02468'] is the evenness of [c / 10^k]. *)
Definition _round_half_up (c digits : Z) : Z :=
  let k := ndigits c - digits in
  let r := c mod 10 ^ k in
  if 5 * 10 ^ (k - 1) <=? r then 1
  else if r =? 0 then 0
  else -1.

Definition _round_half_even (c digits : Z) : Z :=
  let k := ndigits c - digits in
  let r := c mod 10 ^ k in
  if (r =? 5 * 10 ^ (k - 1)) && ((digits =? 0) || Z.even (c / 10 ^ k))
  then -1
  else _round_half_up c digits.

(** [Decimal._fix(context)]: round to the precision of the context and check
    the exponent range. *)
Definition _fix (x : Decimal) : Result Decimal :=
  let s := Z.sgn (coef x) in
  let c := Z.abs (coef x) in
  if coef x =? 0 then
    Ok (mkDecimal 0 (Z.min (Z.max (expo x) Etiny) Emax))
  else
    let exp_min := ndigits c + expo x - prec in
    if Etop <? exp_min then Raise Overflow
    else
      let self_is_subnormal := exp_min <? Etiny in
      let exp_min := if self_is_subnormal then Etiny else exp_min in
      if expo x <? exp_min then
        let digits := ndigits c + expo x - exp_min in
        let c := if digits <? 0 then 1 else c in
        let digits := if digits <? 0 then 0 else digits in
        let changed := _round_half_even c digits in
        let coeff := c / 10 ^ (ndigits c - digits) in
        let bumped := 0 <? changed in
        let carry := bumped && (prec <? ndigits (coeff + 1)) in
        let coeff := if bumped then coeff + 1 else coeff in
        let coeff := if carry then coeff / 10 else coeff in
        let exp_min := if carry then exp_min + 1 else exp_min in
        if Etop <? exp_min then Raise Overflow
        else Ok (mkDecimal (s * coeff) exp_min)
      else Ok x.

(** [Decimal(n)] for a Python int: exact, the context is not applied. *)
Definition of_int (n : Z) : Decimal := mkDecimal n 0.

(** [Decimal.__mul__].  The special cases of the source (a zero operand, a
    coefficient equal to '1') build the same triple as the general case. *)
Definition mul (x y : Decimal) : Result Decimal :=
  _fix (mkDecimal (coef x * coef y) (expo x + expo y)).

(** The loop [while exp < ideal_exp and coeff % 10 == 0] of [__truediv__];
    [n] is [ideal_exp - exp], which each turn decreases by one. *)
Fixpoint strip_zeros (n : nat) (coeff exp : Z) : Z * Z :=
  match n with
  | O => (coeff, exp)
  | S n' =>
      if coeff mod 10 =? 0 then strip_zeros n' (coeff / 10) (exp + 1)
      else (coeff, exp)
  end.

(** [Decimal.__truediv__]. *)
Definition truediv (x y : Decimal) : Result Decimal :=
  if coef y =? 0 then
    if coef x =? 0 then Raise InvalidOperation else Raise DivisionByZero
  else if coef x =? 0 then _fix (mkDecimal 0 (expo x - expo y))
  else
    let a := Z.abs (coef x) in
    let b := Z.abs (coef y) in
    let shift := ndigits b - ndigits a + prec + 1 in
    let exp := expo x - expo y - shift in
    let num := if 0 <=? shift then a * 10 ^ shift else a in
    let den := if 0 <=? shift then b else b * 10 ^ (- shift) in
    let coeff := num / den in
    let remainder := num mod den in
    let ce :=
      if negb (remainder =? 0)
      then (if coeff mod 5 =? 0 then coeff + 1 else coeff, exp)
      else strip_zeros (Z.to_nat (expo x - expo y - exp)) coeff exp in
    _fix (mkDecimal (Z.sgn (coef x) * Z.sgn (coef y) * fst ce) (snd ce)).

(** [Decimal.__int__]: truncation toward zero. *)
Definition to_int (x : Decimal) : Z :=
  if 0 <=? expo x then coef x * 10 ^ expo x
  else Z.quot (coef x) (10 ^ (- expo x)).

(** [Decimal.__eq__] on finite values: numeric equality, whatever the
    exponents. *)
Definition eqb (x y : Decimal) : bool :=
  let m := Z.min (expo x) (expo y) in
  coef x * 10 ^ (expo x - m) =? coef y * 10 ^ (expo y - m).

(** The value of a decimal as an exact rational. *)
Definition value (x : Decimal) : Q :=
  if 0 <=? expo x then inject_Z (coef x * 10 ^ expo x)
  else Qmake (coef x) (Z.to_pos (10 ^ (- expo x))).

End PyDecimal.

Import PyDecimal.

(* ================================================================== *)
(** ** blockchain.py: unit conversion *)

(** [10 ** decimals] is a Python float for a negative [decimals], and
    [Decimal * float] (or [Decimal / float]) raises TypeError. *)
Definition to_wei (amount : Decimal) (decimals : Z) : Result Z :=
  if decimals <? 0 then Raise TypeError
  else
    p <- mul amount (of_int (10 ^ decimals)) ;;
    Ok (to_int p).

Definition from_wei (amount : Z) (decimals : Z) : Result Decimal :=
  if decimals <? 0 then Raise TypeError
  else truediv (of_int amount) (of_int (10 ^ decimals)).

(** Module-level helpers, [decimals] defaulting to 6. *)
Definition wei_to_decimal (amount : Z) : Result Decimal := from_wei amount 6.
Definition decimal_to_wei (amount : Decimal) : Result Z := to_wei amount 6.

(* ================================================================== *)
(** ** blockchain.py: the client and the transaction pipeline *)

(** A transaction dictionary, as built by [build_transaction]. *)
Inductive TxVal : Type :=
| VInt (n : Z)
| VStr (s : string).

Definition TxDict : Type := list (string * TxVal).

Definition dict_mem (k : string) (d : TxDict) : bool :=
  existsb (fun kv => String.eqb (fst kv) k) d.

Fixpoint dict_set (k : string) (v : TxVal) (d : TxDict) : TxDict :=
  match d with
  | [] => [(k, v)]
  | (k', v') :: d' =>
      if String.eqb k' k then (k, v) :: d' else (k', v') :: dict_set k v d'
  end.

Record SignedTransaction : Type := mkSigned { raw_transaction : string }.

(** The receipt dictionary web3 returns. *)
Record ReceiptDict : Type := mkReceiptDict {
  rd_transactionHash : string;
  rd_status : Z;
  rd_blockNumber : Z;
  rd_gasUsed : Z;
  rd_contractAddress : option string;
  rd_logs : list string
}.

(** [TxReceipt] dataclass. *)
Record TxReceipt : Type := mkTxReceipt {
  tx_hash : string;
  status : bool;
  block_number : Z;
  gas_used : Z;
  contract_address : option string;
  logs : list string
}.

(** What the node answers: the calls of [self.w3] the modelled code makes.
    Each may raise (connection lost, revert, malformed address, ...);
    [wait_for_transaction_receipt] raises [TimeExhausted] when no receipt
    arrives within [timeout] seconds. *)
Record Web3 : Type := mkWeb3 {
  vault_balances : string -> string -> Result Z;
  token_balanceOf : string -> string -> Result Z;
  gas_price : Result Z;
  sign_transaction : TxDict -> string -> Result SignedTransaction;
  send_raw_transaction : string -> Result string;
  wait_for_transaction_receipt : string -> Z -> Result ReceiptDict
}.

Record BlockchainClient : Type := mkClient {
  rpc_url : string;
  private_key : option string;
  chain_id : Z;
  w3 : Web3
}.

(** [BlockchainClient.get_balance] and [get_token_balance]. *)
Definition get_balance (self : BlockchainClient)
    (vault_address user_address : string) : Result Z :=
  vault_balances (w3 self) vault_address user_address.

Definition get_token_balance (self : BlockchainClient)
    (token_address user_address : string) : Result Z :=
  token_balanceOf (w3 self) token_address user_address.

(* ================================================================== *)
(** ** models.py: the ledger *)

Module TransactionType.
Inductive t : Type := DEPOSIT | WITHDRAW | ALLOCATE | DEALLOCATE | YIELD.
End TransactionType.

Module TransactionStatus.
Inductive t : Type := PENDING | PROCESSING | COMPLETED | FAILED | CANCELLED.
End TransactionStatus.

Module WithdrawalRequestStatus.
Inductive t : Type := QUEUED | READY | PROCESSED | CANCELLED.

Definition eqb (a b : t) : bool :=
  match a, b with
  | QUEUED, QUEUED | READY, READY | PROCESSED, PROCESSED
  | CANCELLED, CANCELLED => true
  | _, _ => false
  end.
End WithdrawalRequestStatus.

(** The columns the modelled handlers read or write; names, descriptions,
    e-mail, APY, risk level and the created/updated timestamps are left out.
    A prefix tells apart the columns that several tables share ([id],
    [vault_id], [status], ...). *)
Record Vault : Type := mkVault {
  v_id : Z;
  v_address : string;
  v_asset_address : string;
  total_deposits : Q;
  total_allocated : Q;
  total_yield : Q;
  tvl : Q;
  v_is_active : bool
}.

Record Protocol : Type := mkProtocol {
  p_id : Z;
  p_vault_id : Z;
  p_address : string;
  allocated_amount : Q;
  p_is_active : bool
}.

Record User : Type := mkUser {
  u_id : Z;
  wallet_address : string
}.

Record VaultUser : Type := mkVaultUser {
  vu_id : Z;
  vu_vault_id : Z;
  vu_user_id : Z;
  balance : Q
}.

Record Transaction : Type := mkTransaction {
  t_id : Z;
  t_vault_id : Z;
  t_user_id : option Z;
  t_tx_type : TransactionType.t;
  t_status : TransactionStatus.t;
  t_amount : Q;
  t_tx_hash : option string;
  t_from_address : string;
  t_to_address : string
}.

Record WithdrawalRequest : Type := mkWithdrawalRequest {
  w_id : Z;
  w_vault_id : Z;
  w_user_id : Z;
  queue_index : Z;
  w_amount : Q;
  w_status : WithdrawalRequestStatus.t;
  w_tx_hash : option string;
  processed_at : option Z
}.

(** The committed content of the database, one list of rows per table. *)
Record DB : Type := mkDB {
  vaults : list Vault;
  protocols : list Protocol;
  users : list User;
  vault_users : list VaultUser;
  transactions : list Transaction;
  withdrawal_requests : list WithdrawalRequest
}.

(** The state the handlers and the pipeline act on: the database and the raw
    transactions broadcast to the network so far, latest first. *)
Record World : Type := mkWorld {
  db : DB;
  broadcast : list string
}.

Definition commit (w : World) (d : DB) : World := mkWorld d (broadcast w).

(** [query.filter(p).first()] is [find p]; the object it returns is the row
    a later attribute assignment and [db.commit()] update. *)
Fixpoint update_first {A : Type} (p : A -> bool) (f : A -> A) (l : list A)
    : list A :=
  match l with
  | [] => []
  | x :: r => if p x then f x :: r else x :: update_first p f r
  end.

(** The next value of an autoincrement primary key. *)
Definition next_id (ids : list Z) : Z := 1 + fold_right Z.max 0 ids.

Definition Qlt_bool (x y : Q) : bool := negb (Qle_bool y x).

Definition set_vaults (d : DB) (l : list Vault) : DB :=
  mkDB l (protocols d) (users d) (vault_users d) (transactions d)
       (withdrawal_requests d).
Definition set_protocols (d : DB) (l : list Protocol) : DB :=
  mkDB (vaults d) l (users d) (vault_users d) (transactions d)
       (withdrawal_requests d).
Definition set_users (d : DB) (l : list User) : DB :=
  mkDB (vaults d) (protocols d) l (vault_users d) (transactions d)
       (withdrawal_requests d).
Definition set_vault_users (d : DB) (l : list VaultUser) : DB :=
  mkDB (vaults d) (protocols d) (users d) l (transactions d)
       (withdrawal_requests d).
Definition set_transactions (d : DB) (l : list Transaction) : DB :=
  mkDB (vaults d) (protocols d) (users d) (vault_users d) l
       (withdrawal_requests d).
Definition set_withdrawal_requests (d : DB) (l : list WithdrawalRequest)
    : DB :=
  mkDB (vaults d) (protocols d) (users d) (vault_users d) (transactions d) l.

Definition is_vault (vault_id : Z) (v : Vault) : bool := v_id v =? vault_id.
Definition is_protocol (protocol_id : Z) (p : Protocol) : bool :=
  p_id p =? protocol_id.
Definition is_wallet (address : string) (u : User) : bool :=
  String.eqb (wallet_address u) address.
Definition is_vault_user (vault_id user_id : Z) (vu : VaultUser) : bool :=
  (vu_vault_id vu =? vault_id) && (vu_user_id vu =? user_id).
Definition is_withdrawal (withdrawal_id vault_id : Z)
    (r : WithdrawalRequest) : bool :=
  (w_id r =? withdrawal_id) && (w_vault_id r =? vault_id).
Definition is_transaction (id : Z) (t : Transaction) : bool := t_id t =? id.

(* ================================================================== *)
(** ** blockchain.py: _sign_and_send_transaction *)

(** "Add gas price if not EIP-1559". *)
Definition add_gas_price (self : BlockchainClient) (tx : TxDict)
    : Result TxDict :=
  if negb (dict_mem "maxFeePerGas" tx) && negb (dict_mem "gasPrice" tx)
  then (p <- gas_price (w3 self) ;; Ok (dict_set "gasPrice" (VInt p) tx))
  else Ok tx.

Definition _sign_and_send_transaction (self : BlockchainClient)
    (tx : TxDict) (w : World) : Result TxReceipt * World :=
  match private_key self with
  | None => (Raise (BlockchainError "Private key not configured"), w)
  | Some key =>
      match add_gas_price self tx with
      | Raise e => (Raise e, w)
      | Ok tx =>
          match sign_transaction (w3 self) tx key with
          | Raise e => (Raise e, w)
          | Ok signed =>
              match send_raw_transaction (w3 self) (raw_transaction signed) with
              | Raise e => (Raise e, w)
              | Ok sent_hash =>
                  let w' :=
                    mkWorld (db w) (raw_transaction signed :: broadcast w) in
                  match wait_for_transaction_receipt (w3 self) sent_hash 120 with
                  | Raise TimeExhausted =>
                      (Raise (TransactionFailedError "Transaction timed out"),
                       w')
                  | Raise e => (Raise e, w')
                  | Ok receipt =>
                      (Ok (mkTxReceipt (rd_transactionHash receipt)
                             (rd_status receipt =? 1)
                             (rd_blockNumber receipt)
                             (rd_gasUsed receipt)
                             (rd_contractAddress receipt)
                             (rd_logs receipt)),
                       w')
                  end
              end
          end
      end
  end.

(* ================================================================== *)
(** ** schemas.py: requests and responses *)

Record DepositRequest : Type := mkDepositRequest {
  dr_vault_address : string;
  dr_amount : Decimal;
  dr_user_address : string
}.

Record DepositResponse : Type := mkDepositResponse {
  dp_tx_hash : option string;
  dp_vault_id : Z;
  dp_user_id : Z;
  dp_amount : Q;
  dp_new_balance : Q;
  dp_status : TransactionStatus.t
}.

Record WithdrawRequest : Type := mkWithdrawRequest {
  wr_vault_address : string;
  wr_amount : Decimal;
  wr_user_address : string;
  wr_instant : bool
}.

Record WithdrawResponse : Type := mkWithdrawResponse {
  ws_tx_hash : option string;
  ws_queue_index : option Z;
  ws_vault_id : Z;
  ws_user_id : Z;
  ws_amount : Q;
  ws_new_balance : Q;
  ws_status : string
}.

(** [Field(..., gt=0)] and [Query(..., gt=0)]: FastAPI validates the amount
    before the handler body runs and answers 422 otherwise. *)
Definition validate_gt0 (amount : Decimal) : bool := Qlt_bool 0 (value amount).

Definition str_of_Z (n : Z) : string :=
  DecimalString.NilZero.string_of_int (Z.to_int n).

(** [str(e)] as the instant-withdrawal handler formats it into its detail;
    an [HTTPException] prints as "<status>: <detail>". *)
Definition str_of_exn (e : Exn) : string :=
  match e with
  | HTTPException code detail => str_of_Z code ++ ": " ++ detail
  | BlockchainError msg | TransactionFailedError msg | Web3Error msg
  | AttributeError msg => msg
  | NameError name => "name '" ++ name ++ "' is not defined"
  | _ => ""
  end.

Definition zeros63 : string :=
  "000000000000000000000000000000000000000000000000000000000000000".

(* ================================================================== *)
(** ** routes/vault.py *)

(** "Get or create user": a new user is committed at once. *)
Definition get_or_create_user (d : DB) (address : string) : User * DB :=
  match find (is_wallet address) (users d) with
  | Some user => (user, d)
  | None =>
      let user := mkUser (next_id (map u_id (users d))) address in
      (user, set_users d (users d ++ [user]))
  end.

(** [get_user_balance]: the balance is read from the chain first and, when
    the read succeeds, written over the stored one. *)
Definition get_user_balance (blockchain : BlockchainClient) (vault_id : Z)
    (user_address : string) (w : World) : Result Q * World :=
  match find (is_vault vault_id) (vaults (db w)) with
  | None => (Raise (HTTPException 404 "Vault not found"), w)
  | Some vault =>
      let (user, d1) := get_or_create_user (db w) user_address in
      let vault_user := find (is_vault_user vault_id (u_id user)) (vault_users d1) in
      let chain_balance :=
        balance_wei <- get_balance blockchain (v_address vault) user_address ;;
        wei_to_decimal balance_wei in
      match chain_balance with
      | Ok b =>
          match vault_user with
          | Some _ =>
              (Ok (value b),
               commit w (set_vault_users d1
                 (update_first (is_vault_user vault_id (u_id user))
                    (fun vu => mkVaultUser (vu_id vu) (vu_vault_id vu)
                                 (vu_user_id vu) (value b))
                    (vault_users d1))))
          | None => (Ok (value b), commit w d1)
          end
      | Raise _ =>
          (Ok (match vault_user with Some vu => balance vu | None => 0%Q end),
           commit w d1)
      end
  end.

(** [deposit]: the transaction record is committed as pending, then the
    deposit is "simulated": balances are raised and the record completed. *)
Definition deposit (blockchain : BlockchainClient) (vault_id : Z)
    (deposit_data : DepositRequest) (w : World)
    : Result DepositResponse * World :=
  let amount := value (dr_amount deposit_data) in
  if negb (validate_gt0 (dr_amount deposit_data))
  then (Raise RequestValidationError, w)
  else
  match find (is_vault vault_id) (vaults (db w)) with
  | None => (Raise (HTTPException 404 "Vault not found"), w)
  | Some vault =>
      let (user, d1) := get_or_create_user (db w) (dr_user_address deposit_data) in
      match decimal_to_wei (dr_amount deposit_data) with
      | Raise e => (Raise e, commit w d1)
      | Ok amount_wei =>
          let tid := next_id (map t_id (transactions d1)) in
          let transaction :=
            mkTransaction tid vault_id (Some (u_id user))
              TransactionType.DEPOSIT TransactionStatus.PENDING amount None
              (dr_user_address deposit_data) (v_address vault) in
          let d2 := set_transactions d1 (transactions d1 ++ [transaction]) in
          let d3 :=
            match find (is_vault_user vault_id (u_id user)) (vault_users d2) with
            | None =>
                set_vault_users d2
                  (vault_users d2 ++
                   [mkVaultUser (next_id (map vu_id (vault_users d2)))
                      vault_id (u_id user) amount])
            | Some _ =>
                set_vault_users d2
                  (update_first (is_vault_user vault_id (u_id user))
                     (fun vu => mkVaultUser (vu_id vu) (vu_vault_id vu)
                                  (vu_user_id vu) (balance vu + amount)%Q)
                     (vault_users d2))
            end in
          let d4 :=
            set_vaults d3
              (update_first (is_vault vault_id)
                 (fun v => mkVault (v_id v) (v_address v) (v_asset_address v)
                             (total_deposits v + amount)%Q (total_allocated v)
                             (total_yield v) (tvl v + amount)%Q (v_is_active v))
                 (vaults d3)) in
          let mock_hash := ("0x0" ++ zeros63 ++ str_of_Z tid)%string in
          let d5 :=
            set_transactions d4
              (update_first (is_transaction tid)
                 (fun t => mkTransaction (t_id t) (t_vault_id t) (t_user_id t)
                             (t_tx_type t) TransactionStatus.COMPLETED
                             (t_amount t) (Some mock_hash)
                             (t_from_address t) (t_to_address t))
                 (transactions d4)) in
          let new_balance :=
            match find (is_vault_user vault_id (u_id user)) (vault_users d5) with
            | Some vu => balance vu
            | None => amount
            end in
          (Ok (mkDepositResponse (Some mock_hash) vault_id (u_id user) amount
                 new_balance TransactionStatus.COMPLETED),
           commit w d5)
      end
  end.

(** The body of the [try] block of an instant withdrawal: everything it
    raises, the 400 of the liquidity check included, is caught by
    [except Exception] and answered with a 500. *)
Definition instant_withdraw_body (blockchain : BlockchainClient)
    (vault_id : Z) (vault : Vault) (user : User) (vault_user : VaultUser)
    (withdraw_data : WithdrawRequest) (amount_wei : Z) (d : DB)
    : Result (WithdrawResponse * DB) :=
  let amount := value (wr_amount withdraw_data) in
  balance_wei <- get_balance blockchain (v_address vault) (v_address vault) ;;
  vault_balance_wei <-
    get_token_balance blockchain (v_asset_address vault) (v_address vault) ;;
  if vault_balance_wei <? amount_wei then
    Raise (HTTPException 400
             "Insufficient vault liquidity for instant withdrawal")
  else
    let transaction :=
      mkTransaction (next_id (map t_id (transactions d))) vault_id
        (Some (u_id user)) TransactionType.WITHDRAW
        TransactionStatus.COMPLETED amount None
        (v_address vault) (wr_user_address withdraw_data) in
    let d1 := set_transactions d (transactions d ++ [transaction]) in
    let d2 :=
      set_vault_users d1
        (update_first (is_vault_user vault_id (u_id user))
           (fun vu => mkVaultUser (vu_id vu) (vu_vault_id vu) (vu_user_id vu)
                        (balance vu - amount)%Q)
           (vault_users d1)) in
    let d3 :=
      set_vaults d2
        (update_first (is_vault vault_id)
           (fun v => mkVault (v_id v) (v_address v) (v_asset_address v)
                       (total_deposits v - amount)%Q (total_allocated v)
                       (total_yield v) (tvl v - amount)%Q (v_is_active v))
           (vaults d2)) in
    Ok (mkWithdrawResponse (Some ("0x" ++ zeros63 ++ "1")%string) None
          vault_id (u_id user) amount (balance vault_user - amount)%Q
          "completed",
        d3).

(** The queued branch: the request row gets the constant [queue_index=0]
    ("Would be set by contract"), the balance and [total_deposits] are
    lowered at once. *)
Definition queued_withdraw_body (vault_id : Z) (user : User)
    (vault_user : VaultUser) (withdraw_data : WithdrawRequest) (d : DB)
    : WithdrawResponse * DB :=
  let amount := value (wr_amount withdraw_data) in
  let withdrawal :=
    mkWithdrawalRequest (next_id (map w_id (withdrawal_requests d))) vault_id
      (u_id user) 0 amount WithdrawalRequestStatus.QUEUED None None in
  let d1 := set_withdrawal_requests d (withdrawal_requests d ++ [withdrawal]) in
  let d2 :=
    set_vault_users d1
      (update_first (is_vault_user vault_id (u_id user))
         (fun vu => mkVaultUser (vu_id vu) (vu_vault_id vu) (vu_user_id vu)
                      (balance vu - amount)%Q)
         (vault_users d1)) in
  let d3 :=
    set_vaults d2
      (update_first (is_vault vault_id)
         (fun v => mkVault (v_id v) (v_address v) (v_asset_address v)
                     (total_deposits v - amount)%Q (total_allocated v)
                     (total_yield v) (tvl v) (v_is_active v))
         (vaults d2)) in
  (mkWithdrawResponse None (Some (queue_index withdrawal)) vault_id
     (u_id user) amount (balance vault_user - amount)%Q "queued",
   d3).

Definition withdraw (blockchain : BlockchainClient) (vault_id : Z)
    (withdraw_data : WithdrawRequest) (w : World)
    : Result WithdrawResponse * World :=
  let amount := value (wr_amount withdraw_data) in
  if negb (validate_gt0 (wr_amount withdraw_data))
  then (Raise RequestValidationError, w)
  else
  match find (is_vault vault_id) (vaults (db w)) with
  | None => (Raise (HTTPException 404 "Vault not found"), w)
  | Some vault =>
      match find (is_wallet (wr_user_address withdraw_data)) (users (db w)) with
      | None => (Raise (HTTPException 404 "User not found"), w)
      | Some user =>
          match find (is_vault_user vault_id (u_id user)) (vault_users (db w)) with
          | None => (Raise (HTTPException 400 "Insufficient balance"), w)
          | Some vault_user =>
              if Qlt_bool (balance vault_user) amount
              then (Raise (HTTPException 400 "Insufficient balance"), w)
              else
                match decimal_to_wei (wr_amount withdraw_data) with
                | Raise e => (Raise e, w)
                | Ok amount_wei =>
                    if wr_instant withdraw_data then
                      match instant_withdraw_body blockchain vault_id vault
                              user vault_user withdraw_data amount_wei (db w)
                      with
                      | Ok (response, d') => (Ok response, commit w d')
                      | Raise e =>
                          (Raise (HTTPException 500
                                    ("Instant withdrawal failed: "
                                     ++ str_of_exn e)), w)
                      end
                    else
                      let (response, d') :=
                        queued_withdraw_body vault_id user vault_user
                          withdraw_data (db w) in
                      (Ok response, commit w d')
                end
          end
      end
  end.

(** [process_withdrawal]; [utcnow] is the reading of the clock. *)
Definition process_withdrawal (blockchain : BlockchainClient)
    (vault_id withdrawal_id : Z) (utcnow : Z) (w : World)
    : Result (string * string) * World :=
  match find (is_withdrawal withdrawal_id vault_id)
          (withdrawal_requests (db w)) with
  | None => (Raise (HTTPException 404 "Withdrawal request not found"), w)
  | Some withdrawal =>
      if negb (WithdrawalRequestStatus.eqb (w_status withdrawal)
                 WithdrawalRequestStatus.QUEUED)
      then (Raise (HTTPException 400 "Withdrawal is not in queued state"), w)
      else
        let h := ("0x" ++ zeros63 ++ "2")%string in
        (Ok ("processed"%string, h),
         commit w
           (set_withdrawal_requests (db w)
              (update_first (is_withdrawal withdrawal_id vault_id)
                 (fun r => mkWithdrawalRequest (w_id r) (w_vault_id r)
                             (w_user_id r) (queue_index r) (w_amount r)
                             WithdrawalRequestStatus.PROCESSED (Some h)
                             (Some utcnow))
                 (withdrawal_requests (db w)))))
  end.

(* ================================================================== *)
(** ** routes/protocol.py *)

(** [delete_protocol]: a soft delete, [is_active] is cleared. *)
Definition delete_protocol (protocol_id : Z) (w : World)
    : Result unit * World :=
  match find (is_protocol protocol_id) (protocols (db w)) with
  | None => (Raise (HTTPException 404 "Protocol not found"), w)
  | Some protocol =>
      (Ok tt,
       commit w
         (set_protocols (db w)
            (update_first (is_protocol protocol_id)
               (fun p => mkProtocol (p_id p) (p_vault_id p) (p_address p)
                           (allocated_amount p) false)
               (protocols (db w)))))
  end.

Definition add_allocation (delta : Q) (protocol_id vault_id : Z) (d : DB)
    : DB :=
  let d1 :=
    set_protocols d
      (update_first (is_protocol protocol_id)
         (fun p => mkProtocol (p_id p) (p_vault_id p) (p_address p)
                     (allocated_amount p + delta)%Q (p_is_active p))
         (protocols d)) in
  set_vaults d1
    (update_first (is_vault vault_id)
       (fun v => mkVault (v_id v) (v_address v) (v_asset_address v)
                   (total_deposits v) (total_allocated v + delta)%Q
                   (total_yield v) (tvl v) (v_is_active v))
       (vaults d1)).

(** [allocate_to_protocol]; the answer is the protocol's new
    [allocated_amount].  (The detail of the liquidity error also prints the
    available amount, which is left out.) *)
Definition allocate_to_protocol (protocol_id : Z) (amount : Decimal)
    (w : World) : Result Q * World :=
  if negb (validate_gt0 amount) then (Raise RequestValidationError, w)
  else
  match find (is_protocol protocol_id) (protocols (db w)) with
  | None => (Raise (HTTPException 404 "Protocol not found"), w)
  | Some protocol =>
      if negb (p_is_active protocol)
      then (Raise (HTTPException 400 "Protocol is not active"), w)
      else
        match find (is_vault (p_vault_id protocol)) (vaults (db w)) with
        | None => (Raise (HTTPException 404 "Vault not found"), w)
        | Some vault =>
            let vault_balance :=
              (total_deposits vault - total_allocated vault)%Q in
            if Qlt_bool vault_balance (value amount)
            then (Raise (HTTPException 400 "Insufficient vault liquidity"), w)
            else
              let transaction :=
                mkTransaction (next_id (map t_id (transactions (db w))))
                  (p_vault_id protocol) None TransactionType.ALLOCATE
                  TransactionStatus.COMPLETED (value amount) None
                  (v_address vault) (p_address protocol) in
              let d1 :=
                set_transactions (db w)
                  (transactions (db w) ++ [transaction]) in
              (Ok (allocated_amount protocol + value amount)%Q,
               commit w
                 (add_allocation (value amount) protocol_id
                    (p_vault_id protocol) d1))
        end
  end.

(** [deallocate_from_protocol].  The vault is looked up but not checked:
    [vault.address] on [None] raises AttributeError before anything is
    committed. *)
Definition deallocate_from_protocol (protocol_id : Z) (amount : Decimal)
    (w : World) : Result Q * World :=
  if negb (validate_gt0 amount) then (Raise RequestValidationError, w)
  else
  match find (is_protocol protocol_id) (protocols (db w)) with
  | None => (Raise (HTTPException 404 "Protocol not found"), w)
  | Some protocol =>
      if Qlt_bool (allocated_amount protocol) (value amount)
      then (Raise (HTTPException 400 "Insufficient protocol allocation"), w)
      else
        match find (is_vault (p_vault_id protocol)) (vaults (db w)) with
        | None =>
            (Raise (AttributeError
                      "'NoneType' object has no attribute 'address'"), w)
        | Some vault =>
            let transaction :=
              mkTransaction (next_id (map t_id (transactions (db w))))
                (p_vault_id protocol) None TransactionType.DEALLOCATE
                TransactionStatus.COMPLETED (value amount) None
                (p_address protocol) (v_address vault) in
            let d1 :=
              set_transactions (db w)
                (transactions (db w) ++ [transaction]) in
            (Ok (allocated_amount protocol - value amount)%Q,
             commit w
               (add_allocation (- value amount)%Q protocol_id
                  (p_vault_id protocol) d1))
        end
  end.

(* ================================================================== *)
(** ** routes/mobile.py *)

(** What a name of a module or of a function scope is bound to: a
    blockchain client, the function [get_client] that returns the client of
    the process, or anything else. *)
Inductive PyObj : Type :=
| ObjClient (client : BlockchainClient)
| ObjGetClient (client : BlockchainClient)
| ObjOther.

Definition Namespace : Type := list (string * PyObj).

(** Loading a name: the local scope, then the globals of the module; a name
    bound in neither (nor a builtin) raises NameError. *)
Definition load_name (locals globals : Namespace) (name : string)
    : Result PyObj :=
  match find (fun kv => String.eqb (fst kv) name) (locals ++ globals) with
  | Some kv => Ok (snd kv)
  | None => Raise (NameError name)
  end.

Definition other (names : list string) : Namespace :=
  map (fun n => (n, ObjOther)) names.

(** The globals of [routes/mobile.py]: its imports, [router] and its
    handlers.  [get_client] is imported; no [blockchain] is bound. *)
Definition mobile_globals (client : BlockchainClient) : Namespace :=
  other ["List"; "Optional"; "Decimal"; "APIRouter"; "Depends";
         "HTTPException"; "Query"; "status"; "Session"; "get_db"; "Vault";
         "Protocol"; "User"; "VaultUser"; "MobileVaultSummary";
         "MobileWalletInfo"; "MobileDepositFlow"; "MobileErrorResponse"]%string
  ++ [("get_client"%string, ObjGetClient client)]
  ++ other ["wei_to_decimal"; "router"; "mobile_list_vaults";
            "mobile_vault_summary"; "mobile_wallet_info";
            "mobile_deposit_flow"; "mobile_estimate_deposit";
            "mobile_estimate_withdrawal"; "mobile_error_info";
            "mobile_health"]%string.

(** The parameters and local variables of [mobile_estimate_withdrawal]. *)
Definition mobile_estimate_withdrawal_locals : Namespace :=
  other ["vault_address"; "amount"; "user_address"; "instant"; "db"; "vault";
         "user"; "vault_user"; "instant_available";
         "vault_balance_wei"]%string.


(** The [try] block of the liquidity probe; [int(amount * 10**6)] is spelled
    out in the source. *)
Definition liquidity_probe (globals : Namespace) (vault : Vault)
    (amount : Decimal) : Result bool :=
  obj <- load_name mobile_estimate_withdrawal_locals globals "blockchain" ;;
  match obj with
  | ObjClient blockchain =>
      vault_balance_wei <-
        get_token_balance blockchain (v_asset_address vault) (v_address vault) ;;
      p <- mul amount (of_int (10 ^ 6)) ;;
      Ok (to_int p <=? vault_balance_wei)
  | ObjGetClient _ | ObjOther =>
      Raise (AttributeError "object has no attribute 'get_token_balance'")
  end.


(* ================================================================== *)
(** ** The invariants of the specification *)


(** The sum of [allocated_amount] over a vault's active protocols. *)
Definition sum_allocated (vault_id : Z) (l : list Protocol) : Q :=
  fold_right
    (fun p acc =>
       if (p_vault_id p =? vault_id) && p_is_active p
       then (allocated_amount p + acc)%Q else acc)
    0%Q l.


Definition allocated_term (vault_id : Z) (p : Protocol) : Q :=
  if (p_vault_id p =? vault_id) && p_is_active p
  then allocated_amount p else 0%Q.


(** Allocation equality and allocation bound. *)
Definition allocation_equality (d : DB) : Prop :=
  forall vault_id v,
    find (is_vault vault_id) (vaults d) = Some v ->
    (total_allocated v == sum_allocated vault_id (protocols d))%Q.

Definition allocation_bound (d : DB) : Prop :=
  forall vault_id v,
    find (is_vault vault_id) (vaults d) = Some v ->
    (total_allocated v <= total_deposits v)%Q.

(** The same three as checks that compute. *)
Definition check_vaults (f : Z -> Vault -> bool) (d : DB) : bool :=
  forallb
    (fun v0 =>
       match find (is_vault (v_id v0)) (vaults d) with
       | Some v => f (v_id v0) v
       | None => true
       end)
    (vaults d).


Definition allocation_equalityb (d : DB) : bool :=
  check_vaults
    (fun vault_id v =>
       Qeq_bool (total_allocated v) (sum_allocated vault_id (protocols d))) d.


(** "Expressible with at most [decimals] fractional digits": the amount
    times [10 ^ decimals] is an integer, which [minor_units] returns. *)
Definition minor_units (x : Decimal) (decimals : Z) : option Z :=
  let s := expo x + decimals in
  if 0 <=? s then Some (coef x * 10 ^ s)
  else if coef x mod 10 ^ (- s) =? 0 then Some (coef x / 10 ^ (- s))
  else None.

(** The round trip the specification speaks of:
    [from_wei(to_wei(x, d), d) == x]. *)
Definition roundtrip (x : Decimal) (decimals : Z) : Result bool :=
  w <- to_wei x decimals ;;
  y <- from_wei w decimals ;;
  Ok (PyDecimal.eqb y x).

(* ================================================================== *)
(** ** Sample data, after the fixtures of tests/test_api.py *)

Definition sample_vault_address : string :=
  "0x1234567890123456789012345678901234567890".
Definition sample_asset_address : string :=
  "0xabcdefabcdefabcdefabcdefabcdefabcdefabcd".
Definition sample_wallet : string :=
  "0x1111111111111111111111111111111111111111".

(** A node whose vault holds [asset_balance] minor units of the asset and
    reports [user_balance] for every user; it never confirms a transaction
    in time. *)
Definition sample_node (asset_balance user_balance : Z) : Web3 :=
  mkWeb3 (fun _ _ => Ok user_balance) (fun _ _ => Ok asset_balance)
         (Ok 1)
         (fun _ _ => Ok (mkSigned "0xf86c"))
         (fun _ => Ok "0xa1b2"%string)
         (fun _ _ => Raise TimeExhausted).

Definition sample_client (asset_balance user_balance : Z) : BlockchainClient :=
  mkClient "http://localhost:8545" (Some "0x4c0883a6"%string) 1
           (sample_node asset_balance user_balance).

(** [vault_with_user]: one vault, one user holding 10000. *)
Definition sample_vault : Vault :=
  mkVault 1 sample_vault_address sample_asset_address 10000 0 0 1000000 true.

Definition sample_db : DB :=
  mkDB [sample_vault] [] [mkUser 1 sample_wallet]
       [mkVaultUser 1 1 1 10000] [] [].

Definition sample_world : World := mkWorld sample_db [].

(** The same vault with a queued and a ready withdrawal request. *)
Definition queued_request : WithdrawalRequest :=
  mkWithdrawalRequest 1 1 1 0 3000 WithdrawalRequestStatus.QUEUED None None.
Definition ready_request : WithdrawalRequest :=
  mkWithdrawalRequest 2 1 1 0 2000 WithdrawalRequestStatus.READY None None.

Definition queue_world : World :=
  mkWorld
    (mkDB [mkVault 1 sample_vault_address sample_asset_address 5000 0 0
             1000000 true]
          [] [mkUser 1 sample_wallet] [mkVaultUser 1 1 1 5000] []
          [queued_request; ready_request])
    [].

(** After the [seeded_db] fixture of tests/conftest.py: 600000 allocated,
    300000 to each of two protocols. *)
Definition seeded_db : DB :=
  mkDB [mkVault 1 sample_vault_address sample_asset_address 1000000 600000
          15000 1000000 true]
       [mkProtocol 1 1 "0xprotocol00000000000000000000000000000000000001"
          300000 true;
        mkProtocol 2 1 "0xprotocol00000000000000000000000000000000000002"
          300000 true]
       [] [] [] [].

Definition seeded_world : World := mkWorld seeded_db [].

Definition dec (n : Z) : Decimal := mkDecimal n 0.

(* ================================================================== *)
(** ** blockchain.py: contracts, transaction building, write methods *)

Inductive ABI : Type := TMVAULT_ABI | USDC_ABI.

(** A contract instance, as [w3.eth.contract(address=..., abi=...)] builds
    it. *)
Record Contract : Type := mkContract { c_address : string; c_abi : ABI }.

(** [self._contracts], keyed by the address as the caller wrote it. *)
Definition ContractCache : Type := list (string * Contract).

(** The rest of what web3 and the node answer: the checksum of an address
    (which raises on a malformed one), the transaction count of an account,
    gas estimation, the [build_transaction] of a contract function applied to
    its arguments, and [BlockchainClient.get_token_allowance] as a whole. *)
Record Web3Calls : Type := mkWeb3Calls {
  to_checksum_address : string -> Result string;
  get_transaction_count : string -> Result Z;
  estimate_gas : TxDict -> Result Z;
  build_transaction : Contract -> string -> list TxVal -> TxDict
                      -> Result TxDict;
  token_allowance : string -> string -> string -> Result Z
}.

Definition cache_lookup (cache : ContractCache) (address : string)
    : option Contract :=
  option_map snd (find (fun kv => String.eqb (fst kv) address) cache).

(** [BlockchainClient.get_contract]: the cache is asked by address alone. *)
Definition get_contract (calls : Web3Calls) (cache : ContractCache)
    (address : string) (abi : ABI) : Result Contract * ContractCache :=
  match cache_lookup cache address with
  | Some contract => (Ok contract, cache)
  | None =>
      match to_checksum_address calls address with
      | Raise e => (Raise e, cache)
      | Ok checksum_address =>
          let contract := mkContract checksum_address abi in
          (Ok contract, cache ++ [(address, contract)])
      end
  end.

Definition get_vault_contract (calls : Web3Calls) (cache : ContractCache)
    (vault_address : string) : Result Contract * ContractCache :=
  get_contract calls cache vault_address TMVAULT_ABI.

Definition get_token_contract (calls : Web3Calls) (cache : ContractCache)
    (token_address : string) : Result Contract * ContractCache :=
  get_contract calls cache token_address USDC_ABI.

Definition dict_get (k : string) (d : TxDict) : option TxVal :=
  option_map snd (find (fun kv => String.eqb (fst kv) k) d).

(** Python truthiness of an optional string and of an optional int. *)
Definition truthy_str (s : option string) : bool :=
  match s with
  | Some s => negb (String.eqb s "")
  | None => false
  end.



(** The globals of [blockchain.py].  [Web3] is imported; the name [Web2]
    that [deposit] uses is bound nowhere. *)
Definition blockchain_globals : Namespace :=
  other ["os"; "Optional"; "Dict"; "Any"; "List"; "Decimal"; "logging";
         "dataclass"; "requests"; "Web3"; "Contract"; "ContractLogicError";
         "TimeExhausted"; "logger"; "TMVAULT_ABI"; "USDC_ABI";
         "BlockchainError"; "TransactionFailedError"; "ContractCallError";
         "InsufficientFundsError"; "TxReceipt"; "BlockchainClient";
         "RPCClient"; "_client"; "get_client"; "wei_to_decimal";
         "decimal_to_wei"]%string.

(** The locals of the write methods. *)
Definition write_method_locals : Namespace :=
  other ["self"; "vault_address"; "token_address"; "spender_address";
         "owner_address"; "amount"; "index"; "user_address";
         "sender_address"; "vault"; "token"; "tx_data"]%string.

(** What the write methods share: the call is built from the sender, the
    chain id and the nonce are written over what [build_transaction] put,
    and the result is signed and sent.  [checksum_class] is the name through
    which the method reaches [to_checksum_address] when it asks the nonce:
    [Web3] everywhere but in [deposit]. *)
Definition send_call (self : BlockchainClient) (calls : Web3Calls)
    (contract : Contract) (function : string) (args : list TxVal)
    (sender_address : string) (checksum_class : string) (w : World)
    : Result TxReceipt * World :=
  let prepared :=
    sender <- to_checksum_address calls sender_address ;;
    tx_data <- build_transaction calls contract function args
                 [("from"%string, VStr sender)] ;;
    let tx_data := dict_set "chainId" (VInt (chain_id self)) tx_data in
    _ <- load_name write_method_locals blockchain_globals checksum_class ;;
    sender' <- to_checksum_address calls sender_address ;;
    nonce <- get_transaction_count calls sender' ;;
    Ok (dict_set "nonce" (VInt nonce) tx_data) in
  match prepared with
  | Raise e => (Raise e, w)
  | Ok tx_data => _sign_and_send_transaction self tx_data w
  end.

(** The state of a client: its contract cache, and the world. *)
Definition with_contract (r : Result Contract * ContractCache) (w : World)
    (k : Contract -> Result TxReceipt * World)
    : Result TxReceipt * ContractCache * World :=
  match fst r with
  | Raise e => (Raise e, snd r, w)
  | Ok contract => (fst (k contract), snd r, snd (k contract))
  end.

(** [BlockchainClient.approve_token]. *)
Definition approve_token (self : BlockchainClient) (calls : Web3Calls)
    (token_address spender_address : string) (amount : Z)
    (owner_address : string) (cache : ContractCache) (w : World)
    : Result TxReceipt * ContractCache * World :=
  with_contract (get_token_contract calls cache token_address) w
    (fun token =>
       match to_checksum_address calls spender_address with
       | Raise e => (Raise e, w)
       | Ok spender =>
           send_call self calls token "approve" [VStr spender; VInt amount]
             owner_address "Web3" w
       end).

(** [BlockchainClient.deposit]; the nonce is asked through [Web2]. *)
Definition client_deposit (self : BlockchainClient) (calls : Web3Calls)
    (vault_address : string) (amount : Z) (user_address : string)
    (cache : ContractCache) (w : World)
    : Result TxReceipt * ContractCache * World :=
  with_contract (get_vault_contract calls cache vault_address) w
    (fun vault =>
       match to_checksum_address calls user_address with
       | Raise e => (Raise e, w)
       | Ok receiver =>
           send_call self calls vault "deposit" [VInt amount; VStr receiver]
             user_address "Web2" w
       end).

(** [BlockchainClient.instant_withdraw], [request_withdrawal] and
    [process_withdrawal]. *)
Definition instant_withdraw (self : BlockchainClient) (calls : Web3Calls)
    (vault_address : string) (amount : Z) (user_address : string)
    (cache : ContractCache) (w : World)
    : Result TxReceipt * ContractCache * World :=
  with_contract (get_vault_contract calls cache vault_address) w
    (fun vault =>
       send_call self calls vault "instantWithdraw" [VInt amount]
         user_address "Web3" w).

Definition request_withdrawal (self : BlockchainClient) (calls : Web3Calls)
    (vault_address : string) (amount : Z) (user_address : string)
    (cache : ContractCache) (w : World)
    : Result TxReceipt * ContractCache * World :=
  with_contract (get_vault_contract calls cache vault_address) w
    (fun vault =>
       send_call self calls vault "requestWithdrawal" [VInt amount]
         user_address "Web3" w).

Definition client_process_withdrawal (self : BlockchainClient)
    (calls : Web3Calls) (vault_address : string) (index : Z)
    (sender_address : string) (cache : ContractCache) (w : World)
    : Result TxReceipt * ContractCache * World :=
  with_contract (get_vault_contract calls cache vault_address) w
    (fun vault =>
       send_call self calls vault "processWithdrawal" [VInt index]
         sender_address "Web3" w).

(* ================================================================== *)
(** ** routes/vault.py: the other endpoints *)

(** [VaultCreate], less the columns the model leaves out. *)
Record VaultCreate : Type := mkVaultCreate {
  vc_address : string;
  vc_asset_address : string
}.

Definition is_vault_address (address : string) (v : Vault) : bool :=
  String.eqb (v_address v) address.

(** [create_vault]: the column defaults give a new vault zero totals and
    [is_active=True]. *)
Definition create_vault (vault_data : VaultCreate) (w : World)
    : Result Vault * World :=
  match find (is_vault_address (vc_address vault_data)) (vaults (db w)) with
  | Some existing =>
      (Raise (HTTPException 409 "Vault with this address already exists"), w)
  | None =>
      let vault :=
        mkVault (next_id (map v_id (vaults (db w)))) (vc_address vault_data)
          (vc_asset_address vault_data) 0 0 0 0 true in
      (Ok vault, commit w (set_vaults (db w) (vaults (db w) ++ [vault])))
  end.

(** [Query(0, ge=0)] for [skip] and [Query(100, ge=1, le=1000)] for
    [limit]. *)
Definition validate_page (skip limit : Z) : bool :=
  (0 <=? skip) && (1 <=? limit) && (limit <=? 1000).

(** [query.offset(skip).limit(limit).all()], rows in table order. *)
Definition page {A : Type} (skip limit : Z) (l : list A) : list A :=
  firstn (Z.to_nat limit) (skipn (Z.to_nat skip) l).

(** [list_vaults]. *)
Definition list_vaults (skip limit : Z) (active_only : bool) (d : DB)
    : Result (list Vault) :=
  if negb (validate_page skip limit) then Raise RequestValidationError
  else
    let query := if active_only then filter v_is_active (vaults d)
                 else vaults d in
    Ok (page skip limit query).

(** [get_vault] and [get_vault_by_address]: the vault, its protocols (the
    inactive ones too) and the number of its users. *)
Definition vault_detail (vault : Vault) (d : DB)
    : Vault * list Protocol * nat :=
  (vault,
   filter (fun p => p_vault_id p =? v_id vault) (protocols d),
   List.length (filter (fun vu => vu_vault_id vu =? v_id vault)
                  (vault_users d))).

Definition get_vault (vault_id : Z) (d : DB)
    : Result (Vault * list Protocol * nat) :=
  match find (is_vault vault_id) (vaults d) with
  | None => Raise (HTTPException 404 "Vault not found")
  | Some vault =>
      Ok (vault,
          filter (fun p => p_vault_id p =? vault_id) (protocols d),
          List.length (filter (fun vu => vu_vault_id vu =? vault_id)
                         (vault_users d)))
  end.

Definition get_vault_by_address (address : string) (d : DB)
    : Result (Vault * list Protocol * nat) :=
  match find (is_vault_address address) (vaults d) with
  | None => Raise (HTTPException 404 "Vault not found")
  | Some vault => Ok (vault_detail vault d)
  end.

(** [delete_vault]: a soft delete. *)
Definition delete_vault (vault_id : Z) (w : World) : Result unit * World :=
  match find (is_vault vault_id) (vaults (db w)) with
  | None => (Raise (HTTPException 404 "Vault not found"), w)
  | Some vault =>
      (Ok tt,
       commit w
         (set_vaults (db w)
            (update_first (is_vault vault_id)
               (fun v => mkVault (v_id v) (v_address v) (v_asset_address v)
                           (total_deposits v) (total_allocated v)
                           (total_yield v) (tvl v) false)
               (vaults (db w)))))
  end.

(** [WithdrawalRequestStatus(value)]: the member with that value, else
    ValueError. *)
Definition status_of_string (s : string)
    : option WithdrawalRequestStatus.t :=
  if String.eqb s "queued" then Some WithdrawalRequestStatus.QUEUED
  else if String.eqb s "ready" then Some WithdrawalRequestStatus.READY
  else if String.eqb s "processed" then Some WithdrawalRequestStatus.PROCESSED
  else if String.eqb s "cancelled" then Some WithdrawalRequestStatus.CANCELLED
  else None.

(** [list_withdrawals], as the set of rows it answers: the order
    ([requested_at] descending) is over a column the model leaves out.  A
    user filter is applied only when the address is given and known, a
    status filter only when the value names a status. *)
Definition list_withdrawals (vault_id : Z) (user_address : option string)
    (status_filter : option string) (d : DB) : list WithdrawalRequest :=
  let query := filter (fun r => w_vault_id r =? vault_id)
                 (withdrawal_requests d) in
  let query :=
    if truthy_str user_address then
      match find (is_wallet (match user_address with
                             | Some a => a | None => ""%string end))
              (users d) with
      | Some user => filter (fun r => w_user_id r =? u_id user) query
      | None => query
      end
    else query in
  if truthy_str status_filter then
    match status_of_string (match status_filter with
                            | Some s => s | None => ""%string end) with
    | Some status_enum =>
        filter (fun r => WithdrawalRequestStatus.eqb (w_status r) status_enum)
          query
    | None => query
    end
  else query.




(* ================================================================== *)
(** ** routes/protocol.py: the other endpoints *)

Record ProtocolCreate : Type := mkProtocolCreate {
  pc_vault_id : Z;
  pc_address : string
}.

(** [create_protocol]: a new protocol holds no allocation and is active. *)
Definition create_protocol (protocol_data : ProtocolCreate) (w : World)
    : Result Protocol * World :=
  match find (is_vault (pc_vault_id protocol_data)) (vaults (db w)) with
  | None => (Raise (HTTPException 404 "Vault not found"), w)
  | Some vault =>
      match find (fun p => (p_vault_id p =? pc_vault_id protocol_data)
                           && String.eqb (p_address p)
                                (pc_address protocol_data))
              (protocols (db w)) with
      | Some existing =>
          (Raise (HTTPException 409
                    "Protocol with this address already exists for this vault"),
           w)
      | None =>
          let protocol :=
            mkProtocol (next_id (map p_id (protocols (db w))))
              (pc_vault_id protocol_data) (pc_address protocol_data) 0 true in
          (Ok protocol,
           commit w (set_protocols (db w) (protocols (db w) ++ [protocol])))
      end
  end.



(* ================================================================== *)
(** ** schemas.py: UserVaultBalanceResponse.from_decimal *)

Definition digit_char (d : Z) : Ascii.ascii :=
  Ascii.ascii_of_nat (48 + Z.to_nat d).

Definition char_point : Ascii.ascii := Ascii.ascii_of_nat 46.

(** [str(n)] for an int [n >= 0], digit by digit from the right. *)
Fixpoint digits_fuel (fuel : nat) (n : Z) (acc : string) : string :=
  match fuel with
  | O => acc
  | S fuel' =>
      let acc' := String (digit_char (n mod 10)) acc in
      if n <? 10 then acc' else digits_fuel fuel' (n / 10) acc'
  end.

Definition str_int (n : Z) : string :=
  digits_fuel (S (Z.to_nat (Z.log2 n))) n "".

(** ['0' * n]. *)
Definition zeros (n : Z) : string :=
  String.concat ""%string (repeat "0"%string (Z.to_nat n)).

(** [s.rstrip(c)] for a single character [c]. *)
Fixpoint rstrip (c : Ascii.ascii) (s : string) : string :=
  match s with
  | EmptyString => EmptyString
  | String a r =>
      match rstrip c r with
      | EmptyString => if Ascii.eqb a c then EmptyString
                       else String a EmptyString
      | r' => String a r'
      end
  end.

(** [format(x, 'f')] for a finite decimal: the sign, the digits before the
    point and, when there are digits after it, the point and these digits.
    (A zero with a positive exponent is printed as 0.) *)
Definition format_f (x : Decimal) : string :=
  let e := if (coef x =? 0) && (0 <? expo x) then 0 else expo x in
  let sign := if coef x <? 0 then "-"%string else ""%string in
  let int_ := str_int (Z.abs (coef x)) in
  let len := Z.of_nat (String.length int_) in
  let dotplace := e + len in
  let intpart :=
    if dotplace <? 0 then "0"%string
    else if len <? dotplace then (int_ ++ zeros (dotplace - len))%string
    else match substring 0 (Z.to_nat dotplace) int_ with
         | EmptyString => "0"%string
         | s => s
         end in
  let fracpart :=
    if dotplace <? 0 then (zeros (- dotplace) ++ int_)%string
    else if len <? dotplace then ""%string
    else substring (Z.to_nat dotplace) (Z.to_nat (len - dotplace)) int_ in
  (sign ++ intpart
   ++ match fracpart with
      | EmptyString => ""
      | _ => "." ++ fracpart
      end)%string.

(** The balance string of [UserVaultBalanceResponse.from_decimal]:
    [format(balance, 'f').rstrip('0').rstrip('.')]. *)
Definition from_decimal (balance : Decimal) : string :=
  rstrip char_point (rstrip (digit_char 0) (format_f balance)).

(** The [balance] string of the answer of [get_user_balance] when the
    balance is the one read from the chain. *)
Definition chain_balance_string (blockchain : BlockchainClient)
    (vault : Vault) (user_address : string) : Result string :=
  balance_wei <- get_balance blockchain (v_address vault) user_address ;;
  balance <- wei_to_decimal balance_wei ;;
  Ok (from_decimal balance).

(* ================================================================== *)
(** ** routes/mobile.py: the other endpoints *)

Record MobileDepositFlow : Type := mkMobileDepositFlow {
  step : string;
  flow_vault_address : string;
  flow_amount : option Decimal;
  approval_required : bool
}.

(** [bool(amount)] for an optional Decimal: given and not zero. *)
Definition truthy_decimal (amount : option Decimal) : bool :=
  match amount with
  | Some a => negb (coef a =? 0)
  | None => false
  end.

(** The [try] block of [mobile_deposit_flow].  (The 404 of the mobile
    handlers carries a dictionary as detail; it is given by its code.) *)
Definition allowance_probe (calls : Web3Calls) (vault : Vault)
    (amount : option Decimal) (user_address : string) : Result bool :=
  allowance <- token_allowance calls (v_asset_address vault) user_address
                 (v_address vault) ;;
  if truthy_decimal amount then
    p <- mul (match amount with Some a => a | None => mkDecimal 0 0 end)
             (of_int (10 ^ 6)) ;;
    Ok (allowance <? to_int p)
  else Ok (allowance <? 2 ^ 256 - 1).

Definition mobile_deposit_flow (calls : Web3Calls) (vault_address : string)
    (amount : option Decimal) (user_address : string) (d : DB)
    : Result MobileDepositFlow :=
  match find (is_vault_address vault_address) (vaults d) with
  | None => Raise (HTTPException 404 "VAULT_NOT_FOUND")
  | Some vault =>
      match find (is_wallet user_address) (users d) with
      | None => Ok (mkMobileDepositFlow "connect" vault_address None false)
      | Some user =>
          let required :=
            match allowance_probe calls vault amount user_address with
            | Ok b => b
            | Raise _ => true
            end in
          if required
          then Ok (mkMobileDepositFlow "approve" vault_address amount true)
          else Ok (mkMobileDepositFlow "deposit" vault_address amount false)
      end
  end.

(** [mobile_wallet_info]: the USDC balance read through the asset of the
    first active vault (0 when there is none or the read fails), and the
    balances of the user in the active vaults where it is positive. *)
Definition mobile_wallet_info (blockchain : BlockchainClient)
    (address : string) (w : World)
    : (Decimal * list (string * Q)) * World :=
  let (user, d1) := get_or_create_user (db w) address in
  let usdc_balance :=
    match filter v_is_active (vaults d1) with
    | first :: _ =>
        match (balance_wei <-
                 get_token_balance blockchain (v_asset_address first) address ;;
               wei_to_decimal balance_wei) with
        | Ok b => b
        | Raise _ => mkDecimal 0 0
        end
    | [] => mkDecimal 0 0
    end in
  let vault_balances :=
    flat_map
      (fun vault =>
         let balance :=
           match find (is_vault_user (v_id vault) (u_id user))
                   (vault_users d1) with
           | Some vault_user => balance vault_user
           | None => 0%Q
           end in
         if Qlt_bool 0 balance then [(v_address vault, balance)] else [])
      (filter v_is_active (vaults d1)) in
  ((usdc_balance, vault_balances), commit w d1).


(** [mobile_error_info]: the table of known codes and the answer for any
    other. *)
Definition mobile_errors : list (string * (string * string)) :=
  [("INSUFFICIENT_FUNDS",
    ("INSUFFICIENT_FUNDS",
     "You don't have enough USDC to complete this transaction."));
   ("INSUFFICIENT_ALLOWANCE",
    ("INSUFFICIENT_ALLOWANCE",
     "Please approve the vault to spend your USDC."));
   ("NETWORK_ERROR",
    ("NETWORK_ERROR",
     "Unable to connect to the network. Please check your connection."));
   ("TRANSACTION_FAILED",
    ("TRANSACTION_FAILED", "Transaction failed. Please try again."));
   ("WRONG_NETWORK",
    ("WRONG_NETWORK", "Please switch to the correct network."));
   ("VAULT_NOT_FOUND", ("VAULT_NOT_FOUND", "Vault not found."))]%string.

Definition mobile_error_info (code : string) : string * string :=
  match find (fun kv => String.eqb (fst kv) code) mobile_errors with
  | Some kv => snd kv
  | None => (code, "An error occurred."%string)
  end.


(* ================================================================== *)
(** ** More sample data *)

(** A node that confirms what it is sent, in block 100. *)
Definition confirming_node : Web3 :=
  mkWeb3 (fun _ _ => Ok 0) (fun _ _ => Ok 0) (Ok 1)
         (fun _ _ => Ok (mkSigned "0xf86c"))
         (fun _ => Ok "0xa1b2"%string)
         (fun h _ => Ok (mkReceiptDict h 1 100 21000 None [])).

Definition confirming_client : BlockchainClient :=
  mkClient "http://localhost:8545" (Some "0x4c0883a6"%string) 1
           confirming_node.

(** Answers of web3 with every address well formed, the sender at nonce 7,
    and a [build_transaction] that puts the chain id 31337 and the nonce 0
    of its own. *)
Definition sample_calls : Web3Calls :=
  mkWeb3Calls (fun a => Ok a) (fun _ => Ok 7) (fun _ => Ok 21000)
    (fun contract function args tx =>
       Ok (tx ++ [("to"%string, VStr (c_address contract));
                  ("data"%string, VStr function);
                  ("chainId"%string, VInt 31337); ("nonce"%string, VInt 0);
                  ("gas"%string, VInt 90000)]))
    (fun _ _ _ => Ok 0).

(** Case analysis on every [match] of a handler. *)
Ltac break_match :=
  repeat match goal with
    | |- context [match ?x with _ => _ end] => destruct x
    end.

(* ================================================================== *)
(** * Properties *)

(** ** Queries and updates on a table *)

Section Tables.
Context {A : Type}.
Variables (p : A -> bool) (f : A -> A).


(** The row a query returned is the one the update reaches. *)
Lemma find_update_first_hit (l : list A) (x : A) :
  (forall y, p y = true -> p (f y) = true) ->
  find p l = Some x ->
  find p (update_first p f l) = Some (f x).
Proof.
  intros Hp.
  induction l as [|y r IH]; simpl; [discriminate|].
  destruct (p y) eqn:E.
  - intros [= <-]. simpl. now rewrite (Hp _ E).
  - intros H. simpl. rewrite E. now apply IH.
Qed.


Lemma find_snoc (l : list A) (x : A) :
  find p (l ++ [x]) =
  match find p l with
  | Some y => Some y
  | None => if p x then Some x else None
  end.
Proof.
  induction l as [|y r IH]; simpl; [reflexivity|].
  destruct (p y); [reflexivity|exact IH].
Qed.

End Tables.

Lemma Qlt_bool_true (x y : Q) : Qlt_bool x y = true <-> (x < y)%Q.
Proof.
  unfold Qlt_bool. rewrite negb_true_iff.
  split; intros H.
  - apply Qnot_le_lt. intros L. apply Qle_bool_iff in L. congruence.
  - destruct (Qle_bool y x) eqn:E; [|reflexivity].
    apply Qle_bool_iff in E. exfalso. now apply (Qlt_not_le x y).
Qed.


Lemma status_eqb_spec (a b : WithdrawalRequestStatus.t) :
  WithdrawalRequestStatus.eqb a b = true <-> a = b.
Proof.
  destruct a, b; simpl; split; intros H; congruence.
Qed.

(* ================================================================== *)
(** ** The withdrawal state machine (C1) *)

(** C1, as the specification states it, fails on the code: processing the
    queued request 1 of [queue_world] is accepted and turns it into a
    processed one, while processing the ready request 2 is rejected and
    leaves the state as it was. *)
Lemma process_withdrawal_accepts_queued_rejects_ready :
  w_status queued_request = WithdrawalRequestStatus.QUEUED /\
  w_status ready_request = WithdrawalRequestStatus.READY /\
  (let r := process_withdrawal (sample_client 0 0) 1 1 1700000000 queue_world in
   fst r = Ok ("processed", "0x" ++ zeros63 ++ "2")%string /\
   map w_status (withdrawal_requests (db (snd r))) =
     [WithdrawalRequestStatus.PROCESSED; WithdrawalRequestStatus.READY] /\
   map processed_at (withdrawal_requests (db (snd r))) =
     [Some 1700000000; None]) /\
  process_withdrawal (sample_client 0 0) 1 2 1700000000 queue_world =
    (Raise (HTTPException 400 "Withdrawal is not in queued state"),
     queue_world).
Proof.
  repeat split.
Qed.

(** C1, amended: a request reaches [processed] only from [queued].  On a
    request in any other state (ready, processed, cancelled) the operation
    answers 400 and leaves the whole state, status, [processed_at] and
    [tx_hash] included, unchanged; on a queued request it succeeds and the
    request becomes processed, stamped with the clock and the mock hash. *)
Theorem process_withdrawal_only_from_queued
    (blockchain : BlockchainClient) (vault_id withdrawal_id utcnow : Z)
    (w : World) (r : WithdrawalRequest) :
  find (is_withdrawal withdrawal_id vault_id) (withdrawal_requests (db w))
    = Some r ->
  (w_status r <> WithdrawalRequestStatus.QUEUED ->
   process_withdrawal blockchain vault_id withdrawal_id utcnow w =
     (Raise (HTTPException 400 "Withdrawal is not in queued state"), w)) /\
  (w_status r = WithdrawalRequestStatus.QUEUED ->
   let res := process_withdrawal blockchain vault_id withdrawal_id utcnow w in
   fst res = Ok ("processed", "0x" ++ zeros63 ++ "2")%string /\
   find (is_withdrawal withdrawal_id vault_id)
        (withdrawal_requests (db (snd res)))
     = Some (mkWithdrawalRequest (w_id r) (w_vault_id r) (w_user_id r)
               (queue_index r) (w_amount r)
               WithdrawalRequestStatus.PROCESSED
               (Some ("0x" ++ zeros63 ++ "2")%string) (Some utcnow))).
Proof.
  intros Hfind. unfold process_withdrawal. rewrite Hfind. split.
  - intros Hs.
    destruct (WithdrawalRequestStatus.eqb (w_status r)
                WithdrawalRequestStatus.QUEUED) eqn:E; [|reflexivity].
    apply status_eqb_spec in E. contradiction.
  - intros Hs. rewrite Hs. simpl. split; [reflexivity|].
    erewrite find_update_first_hit;
      [reflexivity | intros y Hy; exact Hy | exact Hfind].
Qed.

Lemma process_withdrawal_only_from_queued_witness :
  find (is_withdrawal 1 1) (withdrawal_requests (db queue_world))
    = Some queued_request /\
  fst (process_withdrawal (sample_client 0 0) 1 1 1700000000 queue_world)
    = Ok ("processed", "0x" ++ zeros63 ++ "2")%string.
Proof.
  split; [reflexivity|].
  apply (process_withdrawal_only_from_queued (sample_client 0 0) 1 1
           1700000000 queue_world queued_request); reflexivity.
Defined.

(* ================================================================== *)
(** ** Withdrawals (C2, C4) *)







(* ================================================================== *)
(** ** Ledger mutation and the on-chain step (C3) *)




(* ================================================================== *)
(** ** The confirmation timeout (C9) *)



(** With a receipt in time the pipeline returns it. *)
Lemma confirmation_in_time (self : BlockchainClient) (tx priced : TxDict)
    (w : World) (key sent_hash : string) (signed : SignedTransaction)
    (receipt : ReceiptDict) :
  private_key self = Some key ->
  add_gas_price self tx = Ok priced ->
  sign_transaction (w3 self) priced key = Ok signed ->
  send_raw_transaction (w3 self) (raw_transaction signed) = Ok sent_hash ->
  wait_for_transaction_receipt (w3 self) sent_hash 120 = Ok receipt ->
  exists r,
    fst (_sign_and_send_transaction self tx w) = Ok r /\
    status r = (rd_status receipt =? 1) /\
    tx_hash r = rd_transactionHash receipt.
Proof.
  intros Hkey Hprice Hsign Hsend Hwait.
  unfold _sign_and_send_transaction.
  rewrite Hkey, Hprice, Hsign, Hsend, Hwait.
  eexists. repeat split.
Qed.

(* ================================================================== *)
(** ** The mobile withdrawal estimate (C10) *)




(** Were [blockchain] bound in the scope, as it is for the handlers that
    declare it as a parameter, the same probe would reach the node. *)
Lemma liquidity_probe_with_client_bound :
  let client := sample_client (10 ^ 24) 0 in
  liquidity_probe (("blockchain"%string, ObjClient client)
                     :: mobile_globals client)
    sample_vault (dec 1000) = Ok true.
Proof. reflexivity. Qed.

(* ================================================================== *)
(** ** Sums over a vault's rows *)

Lemma check_vaults_spec (f : Z -> Vault -> bool) (d : DB) :
  check_vaults f d = true <->
  (forall vault_id v,
      find (is_vault vault_id) (vaults d) = Some v -> f vault_id v = true).
Proof.
  unfold check_vaults. rewrite forallb_forall. split.
  - intros H vault_id v Hfind.
    destruct (find_some _ _ Hfind) as [Hin Hid].
    unfold is_vault in Hid. apply Z.eqb_eq in Hid. subst vault_id.
    specialize (H v Hin). now rewrite Hfind in H.
  - intros H v0 _.
    destruct (find (is_vault (v_id v0)) (vaults d)) eqn:E; [|reflexivity].
    now apply H.
Qed.


Lemma allocation_equalityb_spec (d : DB) :
  allocation_equalityb d = true <-> allocation_equality d.
Proof.
  unfold allocation_equalityb, allocation_equality. rewrite check_vaults_spec.
  split; intros H vault_id v Hfind; apply Qeq_bool_iff; now apply H.
Qed.





Lemma sum_allocated_cons (vault_id : Z) (x : Protocol) (l : list Protocol) :
  (sum_allocated vault_id (x :: l)
   == allocated_term vault_id x + sum_allocated vault_id l)%Q.
Proof.
  unfold allocated_term.
  change (sum_allocated vault_id (x :: l))
    with (if (p_vault_id x =? vault_id) && p_is_active x
          then (allocated_amount x + sum_allocated vault_id l)%Q
          else sum_allocated vault_id l).
  destruct ((p_vault_id x =? vault_id) && p_is_active x); lra.
Qed.




(* ================================================================== *)
(** ** Conservation (C6) *)












(* ================================================================== *)
(** ** Allocation equality and allocation bound (C5) *)


Lemma allocation_bound_same (d d' : DB) :
  vaults d' = vaults d -> allocation_bound d -> allocation_bound d'.
Proof.
  unfold allocation_bound. intros ->. trivial.
Qed.










(* ================================================================== *)
(** ** Digits and powers of ten *)

Lemma pow10_pos (k : Z) : 0 <= k -> 0 < 10 ^ k.
Proof. intros H. apply Z.pow_pos_nonneg; lia. Qed.

Lemma pow10_split (a b : Z) : 0 <= a -> 0 <= b -> 10 ^ (a + b) = 10 ^ a * 10 ^ b.
Proof. intros Ha Hb. now apply Z.pow_add_r. Qed.

Lemma pow10_lt (a b : Z) : 0 <= a -> 10 ^ a < 10 ^ b -> a < b.
Proof.
  intros Ha H. destruct (Z_lt_le_dec a b) as [|Hle]; [assumption|].
  destruct (Z_lt_le_dec b 0) as [Hb|Hb].
  - rewrite (Z.pow_neg_r 10 b) in H by assumption.
    pose proof (pow10_pos a Ha). lia.
  - pose proof (Z.pow_le_mono_r 10 b a ltac:(lia) Hle). lia.
Qed.

Lemma ndigits_fuel_spec (fuel : nat) (n : Z) :
  0 < n < 2 ^ Z.of_nat fuel ->
  1 <= ndigits_fuel fuel n /\
  10 ^ (ndigits_fuel fuel n - 1) <= n < 10 ^ ndigits_fuel fuel n.
Proof.
  revert n. induction fuel as [|fuel IH]; intros n Hn.
  - simpl in Hn. lia.
  - cbn [ndigits_fuel]. destruct (Z.ltb_spec n 10) as [Hlt|Hge].
    + simpl. lia.
    + assert (Hq : 0 < n / 10 < 2 ^ Z.of_nat fuel).
      { rewrite Nat2Z.inj_succ, Z.pow_succ_r in Hn by lia.
        split; [apply Z.div_str_pos; lia|].
        apply Z.div_lt_upper_bound; lia. }
      destruct (IH _ Hq) as (H1 & Hlo & Hhi).
      set (k := ndigits_fuel fuel (n / 10)) in *.
      replace (1 + k - 1) with (Z.succ (k - 1)) by lia.
      replace (1 + k) with (Z.succ k) by lia.
      rewrite !Z.pow_succ_r by lia.
      pose proof (Z.div_mod n 10 ltac:(lia)).
      pose proof (Z.mod_pos_bound n 10 ltac:(lia)).
      lia.
Qed.

Lemma ndigits_spec (n : Z) :
  0 < n -> 1 <= ndigits n /\ 10 ^ (ndigits n - 1) <= n < 10 ^ ndigits n.
Proof.
  intros Hn. unfold ndigits. apply ndigits_fuel_spec.
  split; [assumption|].
  rewrite Nat2Z.inj_succ, Z2Nat.id by apply Z.log2_nonneg.
  now apply Z.log2_spec.
Qed.

Lemma ndigits_unique (n k : Z) :
  10 ^ (k - 1) <= n < 10 ^ k -> 1 <= k -> ndigits n = k.
Proof.
  intros [Hlo Hhi] Hk.
  assert (Hn : 0 < n) by (pose proof (pow10_pos (k - 1)); lia).
  destruct (ndigits_spec n Hn) as (H1 & Hlo' & Hhi').
  assert (k - 1 < ndigits n) by (apply pow10_lt; lia).
  assert (ndigits n - 1 < k) by (apply pow10_lt; lia).
  lia.
Qed.

Lemma ndigits_pow10 (d : Z) : 0 <= d -> ndigits (10 ^ d) = d + 1.
Proof.
  intros Hd. apply ndigits_unique; [|lia].
  replace (d + 1 - 1) with d by lia. split; [lia|].
  apply Z.pow_lt_mono_r; lia.
Qed.

(** A positive number below [10 ^ k] has at most [k] digits; one that is at
    least [10 ^ k] has more. *)
Lemma ndigits_le (n k : Z) : 0 < n -> n < 10 ^ k -> ndigits n <= k.
Proof.
  intros Hn Hk. destruct (ndigits_spec n Hn) as (H1 & Hlo & _).
  assert (ndigits n - 1 < k) by (apply pow10_lt; lia). lia.
Qed.

Lemma ndigits_gt (n k : Z) : 0 <= k -> 10 ^ k <= n -> k < ndigits n.
Proof.
  intros Hk Hn. pose proof (pow10_pos k Hk).
  destruct (ndigits_spec n ltac:(lia)) as (H1 & _ & Hhi).
  apply pow10_lt; lia.
Qed.

(* ================================================================== *)
(** ** Rounding to the context: when [_fix] changes nothing of the value *)

Lemma sgn_abs_div (c m : Z) :
  0 < m -> c mod m = 0 -> Z.sgn c * (Z.abs c / m) = c / m.
Proof.
  intros Hm Hdiv. destruct (Z.lt_trichotomy c 0) as [Hc|[->|Hc]].
  - rewrite Z.sgn_neg, Z.abs_neq by lia.
    rewrite Z.div_opp_l_z by lia. lia.
  - reflexivity.
  - rewrite Z.sgn_pos, Z.abs_eq by lia. lia.
Qed.

Lemma abs_mod_zero (c m : Z) : 0 < m -> c mod m = 0 -> Z.abs c mod m = 0.
Proof.
  intros Hm H. apply Z.mod_divide in H; [|lia].
  apply Z.mod_divide; [lia|]. now apply Z.divide_abs_r.
Qed.

(** A coefficient of at most [prec] digits, in range, is returned as it
    is. *)
Lemma fix_fits (x : Decimal) :
  coef x <> 0 ->
  ndigits (Z.abs (coef x)) <= prec ->
  ndigits (Z.abs (coef x)) + expo x - prec <= Etop ->
  Etiny <= expo x ->
  _fix x = Ok x.
Proof.
  intros Hc HL Htop Htiny. unfold _fix.
  destruct (Z.eqb_spec (coef x) 0) as [|_]; [contradiction|].
  cbv zeta.
  set (L := ndigits (Z.abs (coef x))) in *.
  replace (Etop <? L + expo x - prec) with false
    by (symmetry; apply Z.ltb_ge; lia).
  destruct (L + expo x - prec <? Etiny);
    (replace (expo x <? _) with false; [reflexivity|]);
    symmetry; apply Z.ltb_ge; lia.
Qed.

(** A longer coefficient whose digits beyond the precision are all zeros
    loses exactly these zeros. *)
Lemma fix_exact (x : Decimal) (k : Z) :
  coef x <> 0 ->
  k = ndigits (Z.abs (coef x)) - prec ->
  0 < k ->
  coef x mod 10 ^ k = 0 ->
  expo x + k <= Etop ->
  Etiny <= expo x + k ->
  _fix x = Ok (mkDecimal (coef x / 10 ^ k) (expo x + k)).
Proof.
  intros Hc Hk Hpos Hdiv Htop Htiny. unfold _fix.
  destruct (Z.eqb_spec (coef x) 0) as [|_]; [contradiction|].
  cbv zeta.
  set (c := Z.abs (coef x)) in *. set (L := ndigits c) in *.
  assert (Hem : L + expo x - prec = expo x + k) by lia.
  rewrite Hem.
  replace (Etop <? expo x + k) with false by (symmetry; apply Z.ltb_ge; lia).
  replace (expo x + k <? Etiny) with false by (symmetry; apply Z.ltb_ge; lia).
  replace (expo x <? expo x + k) with true by (symmetry; apply Z.ltb_lt; lia).
  replace (L + expo x - (expo x + k)) with prec by lia.
  change (prec <? 0) with false. cbv iota. fold L.
  assert (Hr : c mod 10 ^ k = 0).
  { apply abs_mod_zero; [apply pow10_pos; lia|assumption]. }
  assert (Hround : _round_half_even c prec = 0).
  { unfold _round_half_even, _round_half_up. fold L.
    replace (L - prec) with k by lia. rewrite Hr.
    pose proof (pow10_pos (k - 1) ltac:(lia)).
    replace (0 =? 5 * 10 ^ (k - 1)) with false
      by (symmetry; apply Z.eqb_neq; lia).
    replace (5 * 10 ^ (k - 1) <=? 0) with false
      by (symmetry; apply Z.leb_gt; lia).
    reflexivity. }
  rewrite Hround. change (0 <? 0) with false. cbn [andb].
  replace (Etop <? expo x + k) with false by (symmetry; apply Z.ltb_ge; lia).
  replace (L - prec) with k by lia.
  unfold c. rewrite sgn_abs_div; [reflexivity|apply pow10_pos; lia|assumption].
Qed.

(* ================================================================== *)
(** ** to_wei on an amount with at most [decimals] fractional digits *)

Lemma minor_units_some (x : Decimal) (d N : Z) :
  minor_units x d = Some N ->
  (0 <= expo x + d /\ N = coef x * 10 ^ (expo x + d)) \/
  (expo x + d < 0 /\ coef x = N * 10 ^ (- (expo x + d))).
Proof.
  unfold minor_units.
  destruct (Z.leb_spec 0 (expo x + d)) as [Hs|Hs].
  - intros [= <-]. left. split; [assumption|reflexivity].
  - destruct (Z.eqb_spec (coef x mod 10 ^ (- (expo x + d))) 0) as [Hm|];
      [|discriminate].
    intros [= <-]. right. split; [assumption|].
    pose proof (pow10_pos (- (expo x + d)) ltac:(lia)).
    pose proof (Z.div_mod (coef x) (10 ^ (- (expo x + d))) ltac:(lia)).
    lia.
Qed.

Lemma minor_units_none (x : Decimal) (d : Z) :
  minor_units x d = None ->
  expo x + d < 0 /\ coef x mod 10 ^ (- (expo x + d)) <> 0.
Proof.
  unfold minor_units.
  destruct (Z.leb_spec 0 (expo x + d)) as [Hs|Hs]; [discriminate|].
  destruct (Z.eqb_spec (coef x mod 10 ^ (- (expo x + d))) 0) as [|Hm];
    [discriminate|].
  intros _. split; assumption.
Qed.

(** The product [coef x * 10 ^ d] against the minor units [N]. *)
Lemma minor_units_product (x : Decimal) (d N : Z) :
  0 <= d ->
  minor_units x d = Some N ->
  (0 <= expo x -> N = coef x * 10 ^ d * 10 ^ expo x) /\
  (expo x < 0 -> coef x * 10 ^ d = N * 10 ^ (- expo x)).
Proof.
  intros Hd H. destruct (minor_units_some _ _ _ H) as [[Hs ->]|[Hs Hc]].
  - split; intros He.
    + rewrite (Z.add_comm (expo x) d), pow10_split by lia. ring.
    + replace d with (expo x + d + - expo x) at 1 by lia.
      rewrite pow10_split by lia. ring.
  - split; intros He; [lia|].
    rewrite Hc. replace (- expo x) with (- (expo x + d) + d) by lia.
    rewrite pow10_split by lia. ring.
Qed.

Lemma mul_exact (x : Decimal) (d N : Z) :
  0 <= d ->
  minor_units x d = Some N ->
  Z.abs N < 10 ^ prec ->
  exists p, mul x (of_int (10 ^ d)) = Ok p /\ to_int p = N.
Proof.
  intros Hd HN Hbound.
  destruct (minor_units_product _ _ _ Hd HN) as [Hge Hlt].
  unfold mul, of_int. cbn [coef expo]. rewrite Z.add_0_r.
  set (P := coef x * 10 ^ d) in *. set (e := expo x) in *.
  destruct (Z.eq_dec P 0) as [HP0|HP].
  - (* a zero product *)
    assert (N = 0).
    { destruct (Z_lt_le_dec e 0) as [He|He].
      - specialize (Hlt He). pose proof (pow10_pos (- e) ltac:(lia)). nia.
      - rewrite (Hge He), HP0. reflexivity. }
    subst N. unfold _fix. cbn [coef expo]. rewrite HP0. cbn [Z.eqb].
    eexists. split; [reflexivity|].
    unfold to_int. cbn [coef expo].
    destruct (0 <=? _); reflexivity.
  - assert (HPpos : 0 < Z.abs P) by lia.
    destruct (ndigits_spec _ HPpos) as (HL1 & HLlo & HLhi).
    set (L := ndigits (Z.abs P)) in *.
    destruct (Z_lt_le_dec e 0) as [He|He].
    + (* negative exponent: the product ends in [-e] zeros *)
      specialize (Hlt He). clear Hge.
      pose proof (pow10_pos (- e) ltac:(lia)) as HM.
      assert (HN0 : N <> 0) by (intros ->; lia).
      assert (HabsP : Z.abs P = Z.abs N * 10 ^ (- e)).
      { rewrite Hlt, Z.abs_mul, (Z.abs_eq (10 ^ (- e))) by lia. reflexivity. }
      assert (HLe : 0 < L + e).
      { assert (- e < L); [|lia]. apply ndigits_gt; [lia|].
        rewrite HabsP. nia. }
      assert (HLk : L - prec <= - e).
      { assert (L - 1 < prec + - e); [|lia].
        apply pow10_lt; [lia|].
        rewrite pow10_split by (unfold prec; lia).
        apply Z.le_lt_trans with (Z.abs P); [assumption|].
        rewrite HabsP. nia. }
      destruct (Z_le_gt_dec L prec) as [Hfit|Hlong].
      * exists (mkDecimal P e). split.
        -- apply fix_fits; cbn [coef expo]; fold L;
             unfold Etop, Etiny, Emax, Emin, prec in *; lia.
        -- unfold to_int. cbn [coef expo]. fold e.
           destruct (Z.leb_spec 0 e); [lia|].
           rewrite Hlt. apply Z.quot_mul. lia.
      * set (k := L - prec).
        assert (Hsplit : 10 ^ (- e) = 10 ^ (- e - k) * 10 ^ k).
        { rewrite <- pow10_split by (unfold k; lia). f_equal. lia. }
        assert (HPk : P = N * 10 ^ (- e - k) * 10 ^ k).
        { rewrite Hlt, Hsplit. ring. }
        pose proof (pow10_pos k ltac:(unfold k; lia)) as Hk10.
        exists (mkDecimal (P / 10 ^ k) (e + k)). split.
        -- apply fix_exact; cbn [coef expo]; fold L; fold e;
             try (unfold k, Etop, Etiny, Emax, Emin, prec in *; lia).
           rewrite HPk. apply Z.mod_mul. lia.
        -- unfold to_int. cbn [coef expo].
           rewrite HPk, Z.div_mul by lia.
           destruct (Z.leb_spec 0 (e + k)) as [H0|H0].
           ++ replace (e + k) with 0 by (unfold k in *; lia).
              replace (- e - k) with 0 by (unfold k in *; lia).
              rewrite Z.pow_0_r. ring.
           ++ replace (- (e + k)) with (- e - k) by lia.
              apply Z.quot_mul.
              pose proof (pow10_pos (- e - k) ltac:(lia)). lia.
    + (* non-negative exponent *)
      specialize (Hge He). clear Hlt.
      pose proof (pow10_pos e He) as HM.
      assert (HabsN : Z.abs N = Z.abs P * 10 ^ e).
      { rewrite Hge, Z.abs_mul, (Z.abs_eq (10 ^ e)) by lia. reflexivity. }
      assert (HLe : L - 1 + e < prec).
      { apply pow10_lt; [lia|].
        rewrite pow10_split by lia.
        apply Z.le_lt_trans with (Z.abs N); [|assumption].
        rewrite HabsN. nia. }
      exists (mkDecimal P e). split.
      * apply fix_fits; cbn [coef expo]; fold L;
          unfold Etop, Etiny, Emax, Emin, prec in *; lia.
      * unfold to_int. cbn [coef expo]. fold e.
        destruct (Z.leb_spec 0 e); [|lia]. now rewrite Hge.
Qed.

Lemma to_wei_exact (x : Decimal) (d N : Z) :
  0 <= d ->
  minor_units x d = Some N ->
  Z.abs N < 10 ^ prec ->
  to_wei x d = Ok N.
Proof.
  intros Hd HN Hbound. unfold to_wei.
  destruct (Z.ltb_spec d 0); [lia|].
  destruct (mul_exact _ _ _ Hd HN Hbound) as (p & -> & <-). reflexivity.
Qed.

(* ================================================================== *)
(** ** from_wei on an integer of at most [prec] digits *)

Lemma strip_zeros_spec (n : nat) (c e : Z) :
  0 < c ->
  let r := strip_zeros n c e in
  0 < fst r /\ c = fst r * 10 ^ (snd r - e) /\
  e <= snd r <= e + Z.of_nat n /\
  (snd r = e + Z.of_nat n \/ fst r mod 10 <> 0).
Proof.
  revert c e. induction n as [|n IH]; intros c e Hc; cbn [strip_zeros].
  - cbn [fst snd]. rewrite Z.sub_diag, Z.pow_0_r. simpl. lia.
  - destruct (Z.eqb_spec (c mod 10) 0) as [Hm|Hm].
    + pose proof (Z.div_mod c 10 ltac:(lia)) as Hdm.
      assert (Hq : 0 < c / 10) by lia.
      destruct (IH (c / 10) (e + 1) Hq) as (H1 & H2 & H3 & H4).
      set (r := strip_zeros n (c / 10) (e + 1)) in *.
      split; [assumption|]. split; [|split; [lia|]].
      * replace (snd r - e) with (Z.succ (snd r - (e + 1))) by lia.
        rewrite Z.pow_succ_r by lia. lia.
      * destruct H4 as [H4|H4]; [left; lia|right; assumption].
    + cbn [fst snd]. rewrite Z.sub_diag, Z.pow_0_r.
      split; [assumption|]. split; [lia|]. split; [lia|]. now right.
Qed.

Lemma abs_sgn_mul (n c : Z) : n <> 0 -> 0 < c -> Z.abs (Z.sgn n * 1 * c) = c.
Proof.
  intros Hn Hc. destruct (Z.lt_trichotomy n 0) as [H|[H|H]]; [|lia|].
  - rewrite Z.sgn_neg by lia. lia.
  - rewrite Z.sgn_pos by lia. lia.
Qed.

Lemma sgn_mul_abs (n c : Z) : c = Z.abs n -> Z.sgn n * 1 * c = n.
Proof.
  intros ->. destruct (Z.lt_trichotomy n 0) as [H|[H|H]].
  - rewrite Z.sgn_neg by lia. lia.
  - subst. reflexivity.
  - rewrite Z.sgn_pos by lia. lia.
Qed.

Lemma from_wei_exact (N d : Z) :
  0 <= d <= Emax ->
  Z.abs N < 10 ^ prec ->
  exists y,
    from_wei N d = Ok y /\
    coef y * 10 ^ (expo y + d) = N /\ - d <= expo y.
Proof.
  intros Hd Hbound. unfold from_wei.
  destruct (Z.ltb_spec d 0); [lia|].
  pose proof (pow10_pos d ltac:(lia)) as Hpd.
  unfold truediv, of_int. cbn [coef expo].
  destruct (Z.eqb_spec (10 ^ d) 0) as [|_]; [lia|].
  destruct (Z.eqb_spec N 0) as [->|HN].
  - exists (mkDecimal 0 0). split; [reflexivity|]. cbn [coef expo]. lia.
  - cbv zeta.
    rewrite (Z.abs_eq (10 ^ d)), ndigits_pow10, (Z.sgn_pos (10 ^ d)) by lia.
    set (a := Z.abs N) in *.
    assert (Ha : 0 < a) by (unfold a; lia).
    destruct (ndigits_spec a Ha) as (HL1 & _ & _).
    pose proof (ndigits_le a prec Ha Hbound) as HL.
    set (shift := d + 1 - ndigits a + prec + 1).
    assert (Hshift : d + 2 <= shift) by (unfold shift; lia).
    destruct (Z.leb_spec 0 shift) as [_|]; [|lia].
    assert (Hnum : a * 10 ^ shift = a * 10 ^ (shift - d) * 10 ^ d).
    { rewrite <- Z.mul_assoc, <- pow10_split by lia. do 2 f_equal. lia. }
    rewrite Hnum, Z.mod_mul, Z.div_mul by lia.
    cbn [Z.eqb negb].
    replace (0 - 0 - (0 - 0 - shift)) with shift by lia.
    replace (0 - 0 - shift) with (- shift) by lia.
    pose proof (pow10_pos (shift - d) ltac:(lia)) as Hps.
    destruct (strip_zeros_spec (Z.to_nat shift) (a * 10 ^ (shift - d))
                (- shift) ltac:(nia)) as (Hc' & Heq & Hrange & Hstop).
    set (r := strip_zeros (Z.to_nat shift) (a * 10 ^ (shift - d)) (- shift))
      in *.
    rewrite Z2Nat.id in * by lia.
    (* the stripped coefficient is the integer with [d] digits moved *)
    assert (Hval : 0 <= snd r + d /\ fst r * 10 ^ (snd r + d) = a).
    { destruct (Z_lt_le_dec (snd r + d) 0) as [Hneg|Hnn].
      - exfalso. destruct Hstop as [Hstop|Hstop]; [lia|]. apply Hstop.
        assert (fst r = a * 10 ^ (- (snd r + d) - 1) * 10).
        { apply Z.mul_reg_r with (10 ^ (snd r - - shift));
            [pose proof (pow10_pos (snd r - - shift) ltac:(lia)); lia|].
          rewrite <- Heq.
          replace (shift - d)
            with ((- (snd r + d) - 1) + 1 + (snd r - - shift)) by lia.
          rewrite !pow10_split by lia. change (10 ^ 1) with 10. ring. }
        rewrite H0. apply Z.mod_mul. lia.
      - split; [assumption|].
        apply Z.mul_reg_r with (10 ^ (shift - d)); [lia|].
        rewrite Heq.
        replace (snd r - - shift) with (snd r + d + (shift - d)) by lia.
        rewrite (pow10_split (snd r + d) (shift - d)) by lia. ring. }
    destruct Hval as (Hnn & Hval).
    pose proof (pow10_pos (snd r + d) Hnn) as Hpr.
    exists (mkDecimal (Z.sgn N * 1 * fst r) (snd r)). split.
    + apply fix_fits; cbn [coef expo].
      * destruct (Z.lt_trichotomy N 0) as [Hs|[Hs|Hs]]; [|lia|].
        -- rewrite Z.sgn_neg by lia. lia.
        -- rewrite Z.sgn_pos by lia. lia.
      * rewrite abs_sgn_mul by assumption.
        apply ndigits_le; [assumption|]. nia.
      * rewrite abs_sgn_mul by assumption.
        assert (ndigits (fst r) <= prec)
          by (apply ndigits_le; [assumption|nia]).
        unfold Etop, Emax, prec in *. lia.
      * unfold Etiny, Emin, Emax, prec in *. lia.
    + cbn [coef expo]. split; [|lia].
      rewrite <- Z.mul_assoc, Hval. unfold a.
      destruct (Z.lt_trichotomy N 0) as [Hs|[Hs|Hs]]; [|lia|].
      * rewrite Z.sgn_neg by lia. lia.
      * rewrite Z.sgn_pos by lia. lia.
Qed.

(* ================================================================== *)
(** ** The round trip of the unit conversion (C7) *)

(** C7, as the specification states it, fails on the code: [10^28 + 1] has
    no fractional digit at all, yet the default context rounds the product
    to 28 significant digits, [to_wei] answers [10^28], and the round trip
    compares unequal.  The same happens with 18 decimals for an amount that
    fits a [Numeric(36, 18)] column. *)
Lemma roundtrip_loses_29th_digit :
  let x := mkDecimal (10 ^ 28 + 1) 0 in
  let y := mkDecimal 123456789012123456789012345678 (-18) in
  minor_units x 0 = Some (10 ^ 28 + 1) /\
  to_wei x 0 = Ok (10 ^ 28) /\
  roundtrip x 0 = Ok false /\
  minor_units y 18 = Some 123456789012123456789012345678 /\
  to_wei y 18 = Ok 123456789012123456789012345700 /\
  roundtrip y 18 = Ok false.
Proof.
  vm_compute. repeat split.
Qed.

(** C7, amended: for every amount with at most [decimals] fractional digits
    whose value in minor units has at most 28 digits (the precision of the
    decimal context), and [0 <= decimals <= 999999], [to_wei] returns the
    exact minor units and [from_wei(to_wei(x, d), d) == x]. *)
Theorem wei_roundtrip (x : Decimal) (decimals N : Z) :
  0 <= decimals <= Emax ->
  minor_units x decimals = Some N ->
  Z.abs N < 10 ^ prec ->
  to_wei x decimals = Ok N /\ roundtrip x decimals = Ok true.
Proof.
  intros Hd HN Hbound.
  pose proof (to_wei_exact x decimals N ltac:(lia) HN Hbound) as Hto.
  split; [assumption|].
  unfold roundtrip. rewrite Hto. cbn [bind].
  destruct (from_wei_exact N decimals Hd Hbound) as (y & -> & Hy & Hey).
  cbn [bind]. f_equal. unfold PyDecimal.eqb. apply Z.eqb_eq.
  set (m := Z.min (expo y) (expo x)).
  destruct (minor_units_some _ _ _ HN) as [[Hs HNx]|[Hs Hcx]].
  - (* both exponents are at least [- decimals] *)
    assert (Hm : 0 <= m + decimals) by (unfold m; lia).
    apply Z.mul_reg_r with (10 ^ (m + decimals));
      [pose proof (pow10_pos _ Hm); lia|].
    rewrite <- !Z.mul_assoc, <- !pow10_split by (unfold m; lia).
    replace (expo y - m + (m + decimals)) with (expo y + decimals) by lia.
    replace (expo x - m + (m + decimals)) with (expo x + decimals) by lia.
    congruence.
  - (* the exponent of [x] is the smaller one *)
    assert (Hm : m = expo x) by (unfold m; lia).
    rewrite Hm, Z.sub_diag, Z.pow_0_r, Z.mul_1_r, Hcx, <- Hy.
    rewrite <- Z.mul_assoc, <- pow10_split by lia.
    do 2 f_equal. lia.
Qed.

Lemma wei_roundtrip_witness :
  to_wei (mkDecimal 100050 (-2)) 6 = Ok 1000500000 /\
  roundtrip (mkDecimal 100050 (-2)) 6 = Ok true.
Proof.
  apply (wei_roundtrip (mkDecimal 100050 (-2)) 6 1000500000).
  - unfold Emax. lia.
  - reflexivity.
  - reflexivity.
Defined.

(* ================================================================== *)
(** ** Amounts with too many fractional digits (C8) *)

(** C8, as the specification states it, fails on the code: [0.0000001] has
    seven fractional digits, and [to_wei] with six decimals answers 0; no
    error is raised.  Likewise [1.9999999] becomes 1999999. *)
Lemma to_wei_drops_digits_silently :
  minor_units (mkDecimal 1 (-7)) 6 = None /\
  to_wei (mkDecimal 1 (-7)) 6 = Ok 0 /\
  minor_units (mkDecimal 19999999 (-7)) 6 = None /\
  to_wei (mkDecimal 19999999 (-7)) 6 = Ok 1999999.
Proof.
  vm_compute. repeat split.
Qed.

(** C8, amended: [to_wei] signals no loss of precision.  For an amount that
    is not representable with at most [decimals] fractional digits, whose
    coefficient scaled by [10 ^ decimals] has at most 28 digits, it returns
    the amount times [10 ^ decimals] truncated toward zero, and that integer
    differs from the exact product. *)
Theorem to_wei_truncates (x : Decimal) (decimals : Z) :
  0 <= decimals ->
  minor_units x decimals = None ->
  ndigits (Z.abs (coef x) * 10 ^ decimals) <= prec ->
  Etiny <= expo x ->
  let scaled := coef x * 10 ^ decimals in
  to_wei x decimals = Ok (Z.quot scaled (10 ^ (- expo x))) /\
  Z.quot scaled (10 ^ (- expo x)) * 10 ^ (- expo x) <> scaled.
Proof.
  intros Hd Hnone HL Htiny scaled.
  destruct (minor_units_none _ _ Hnone) as [Hs Hmod].
  pose proof (pow10_pos decimals Hd) as Hpd.
  pose proof (pow10_pos (- expo x) ltac:(lia)) as Hpe.
  assert (Hc : coef x <> 0) by (intros E; rewrite E in Hmod; now apply Hmod).
  assert (Habs : Z.abs scaled = Z.abs (coef x) * 10 ^ decimals).
  { unfold scaled. rewrite Z.abs_mul, (Z.abs_eq (10 ^ decimals)) by lia.
    reflexivity. }
  split.
  - unfold to_wei. destruct (Z.ltb_spec decimals 0); [lia|].
    unfold mul, of_int. cbn [coef expo]. rewrite Z.add_0_r. fold scaled.
    rewrite fix_fits; cbn [coef expo bind].
    + unfold to_int. cbn [coef expo].
      destruct (Z.leb_spec 0 (expo x)); [lia|reflexivity].
    + unfold scaled. nia.
    + now rewrite Habs.
    + rewrite Habs. unfold Etop, Emax, prec in *. lia.
    + assumption.
  - intros Heq. apply Hmod.
    assert (Hsplit : 10 ^ (- expo x)
                     = 10 ^ (- (expo x + decimals)) * 10 ^ decimals).
    { rewrite <- pow10_split by lia. f_equal. lia. }
    rewrite Hsplit in Heq. unfold scaled in Heq.
    rewrite Z.mul_assoc in Heq. apply Z.mul_reg_r in Heq; [|lia].
    rewrite <- Heq. apply Z.mod_mul.
    pose proof (pow10_pos (- (expo x + decimals)) ltac:(lia)). lia.
Qed.

Lemma to_wei_truncates_witness :
  to_wei (mkDecimal 19999999 (-7)) 6 = Ok 1999999.
Proof.
  apply (to_wei_truncates (mkDecimal 19999999 (-7)) 6).
  - lia.
  - reflexivity.
  - vm_compute. discriminate.
  - vm_compute. discriminate.
Defined.

(* ================================================================== *)
(** * Further properties of the code *)

(** ** Unit conversion, the other way round *)

(** X1: An integer of at most 28 digits survives [from_wei] followed by
    [to_wei]: minor units turned into an amount and back are the same minor
    units. *)
Theorem wei_decimal_wei (N decimals : Z) :
  0 <= decimals <= Emax ->
  Z.abs N < 10 ^ prec ->
  exists y, from_wei N decimals = Ok y /\ to_wei y decimals = Ok N.
Proof.
  intros Hd Hbound.
  destruct (from_wei_exact N decimals Hd Hbound) as (y & Hy & Hval & Hexp).
  exists y. split; [assumption|].
  apply to_wei_exact; [lia| |assumption].
  unfold minor_units.
  destruct (Z.leb_spec 0 (expo y + decimals)); [|lia].
  now rewrite Hval.
Qed.

Lemma wei_decimal_wei_witness :
  exists y, from_wei 1000500000 6 = Ok y /\ to_wei y 6 = Ok 1000500000.
Proof.
  apply (wei_decimal_wei 1000500000 6).
  - unfold Emax. lia.
  - reflexivity.
Defined.

(** The representation [from_wei] returns: the exponent is never positive,
    and trailing zeros of the coefficient are dropped as long as it is
    negative. *)
Lemma from_wei_canonical (N d : Z) :
  0 <= d <= Emax ->
  Z.abs N < 10 ^ prec ->
  exists y,
    from_wei N d = Ok y /\
    coef y * 10 ^ (expo y + d) = N /\ - d <= expo y <= 0 /\
    (expo y = 0 \/ coef y mod 10 <> 0).
Proof.
  intros Hd Hbound. unfold from_wei.
  destruct (Z.ltb_spec d 0); [lia|].
  pose proof (pow10_pos d ltac:(lia)) as Hpd.
  unfold truediv, of_int. cbn [coef expo].
  destruct (Z.eqb_spec (10 ^ d) 0) as [|_]; [lia|].
  destruct (Z.eqb_spec N 0) as [->|HN].
  - exists (mkDecimal 0 0). split; [reflexivity|]. cbn [coef expo]. lia.
  - cbv zeta.
    rewrite (Z.abs_eq (10 ^ d)), ndigits_pow10, (Z.sgn_pos (10 ^ d)) by lia.
    set (a := Z.abs N) in *.
    assert (Ha : 0 < a) by (unfold a; lia).
    destruct (ndigits_spec a Ha) as (HL1 & _ & _).
    pose proof (ndigits_le a prec Ha Hbound) as HL.
    set (shift := d + 1 - ndigits a + prec + 1).
    assert (Hshift : d + 2 <= shift) by (unfold shift; lia).
    destruct (Z.leb_spec 0 shift) as [_|]; [|lia].
    assert (Hnum : a * 10 ^ shift = a * 10 ^ (shift - d) * 10 ^ d).
    { rewrite <- Z.mul_assoc, <- pow10_split by lia. do 2 f_equal. lia. }
    rewrite Hnum, Z.mod_mul, Z.div_mul by lia.
    cbn [Z.eqb negb].
    replace (0 - 0 - (0 - 0 - shift)) with shift by lia.
    replace (0 - 0 - shift) with (- shift) by lia.
    pose proof (pow10_pos (shift - d) ltac:(lia)) as Hps.
    destruct (strip_zeros_spec (Z.to_nat shift) (a * 10 ^ (shift - d))
                (- shift) ltac:(nia)) as (Hc' & Heq & Hrange & Hstop).
    set (r := strip_zeros (Z.to_nat shift) (a * 10 ^ (shift - d)) (- shift))
      in *.
    rewrite Z2Nat.id in * by lia.
    assert (Hval : 0 <= snd r + d /\ fst r * 10 ^ (snd r + d) = a).
    { destruct (Z_lt_le_dec (snd r + d) 0) as [Hneg|Hnn].
      - exfalso. destruct Hstop as [Hstop|Hstop]; [lia|]. apply Hstop.
        assert (fst r = a * 10 ^ (- (snd r + d) - 1) * 10).
        { apply Z.mul_reg_r with (10 ^ (snd r - - shift));
            [pose proof (pow10_pos (snd r - - shift) ltac:(lia)); lia|].
          rewrite <- Heq.
          replace (shift - d)
            with ((- (snd r + d) - 1) + 1 + (snd r - - shift)) by lia.
          rewrite !pow10_split by lia. change (10 ^ 1) with 10. ring. }
        rewrite H0. apply Z.mod_mul. lia.
      - split; [assumption|].
        apply Z.mul_reg_r with (10 ^ (shift - d)); [lia|].
        rewrite Heq.
        replace (snd r - - shift) with (snd r + d + (shift - d)) by lia.
        rewrite (pow10_split (snd r + d) (shift - d)) by lia. ring. }
    destruct Hval as (Hnn & Hval).
    pose proof (pow10_pos (snd r + d) Hnn) as Hpr.
    assert (Hlen : ndigits (fst r) <= prec)
      by (apply ndigits_le; [assumption|nia]).
    assert (Hsgn : Z.sgn N * 1 * fst r <> 0).
    { destruct (Z.lt_trichotomy N 0) as [Hs|[Hs|Hs]]; [|lia|].
      - rewrite Z.sgn_neg by lia. lia.
      - rewrite Z.sgn_pos by lia. lia. }
    exists (mkDecimal (Z.sgn N * 1 * fst r) (snd r)). split.
    + apply fix_fits; cbn [coef expo].
      * assumption.
      * now rewrite abs_sgn_mul by assumption.
      * rewrite abs_sgn_mul by assumption.
        unfold Etop, Emax, prec in *. lia.
      * unfold Etiny, Emin, Emax, prec in *. lia.
    + cbn [coef expo]. split; [|split; [lia|]].
      * rewrite <- Z.mul_assoc, Hval. unfold a.
        destruct (Z.lt_trichotomy N 0) as [Hs|[Hs|Hs]]; [|lia|].
        -- rewrite Z.sgn_neg by lia. lia.
        -- rewrite Z.sgn_pos by lia. lia.
      * destruct Hstop as [Hstop|Hstop]; [left; lia|right].
        intros Hm. apply Hstop.
        destruct (Z.lt_trichotomy N 0) as [Hs|[Hs|Hs]]; [|lia|].
        -- rewrite Z.sgn_neg in Hm by lia.
           replace (-1 * 1 * fst r) with (- fst r) in Hm by lia.
           apply Z.mod_divide in Hm; [|lia].
           apply Z.mod_divide; [lia|]. destruct Hm as [k Hk]. exists (- k). lia.
        -- rewrite Z.sgn_pos in Hm by lia.
           now replace (1 * 1 * fst r) with (fst r) in Hm by lia.
Qed.

(** A whole number of units comes back from the chain as the integer
    decimal, with exponent 0: [from_wei(n * 10^d, d)] is [Decimal(n)]. *)
Lemma from_wei_whole_units (n decimals : Z) :
  0 <= decimals <= Emax ->
  Z.abs (n * 10 ^ decimals) < 10 ^ prec ->
  from_wei (n * 10 ^ decimals) decimals = Ok (mkDecimal n 0).
Proof.
  intros Hd Hbound.
  destruct (from_wei_canonical _ _ Hd Hbound)
    as ([c e] & -> & Hval & Hexp & Hstop).
  cbn [coef expo] in *. f_equal.
  pose proof (pow10_pos decimals ltac:(lia)) as Hpd.
  assert (He : e = 0).
  { destruct Hstop as [|Hstop]; [assumption|].
    destruct (Z.eq_dec e 0) as [|Hne]; [assumption|]. exfalso. apply Hstop.
    assert (Hc : c = n * 10 ^ (- e - 1) * 10).
    { apply Z.mul_reg_r with (10 ^ (e + decimals));
        [pose proof (pow10_pos (e + decimals) ltac:(lia)); lia|].
      rewrite Hval.
      replace decimals with ((- e - 1) + 1 + (e + decimals)) at 1 by lia.
      rewrite !pow10_split by lia. change (10 ^ 1) with 10. ring. }
    rewrite Hc. apply Z.mod_mul. lia. }
  subst e. f_equal. rewrite Z.add_0_l in Hval.
  apply Z.mul_reg_r with (10 ^ decimals); [lia|assumption].
Qed.

(* ================================================================== *)
(** ** The transaction dictionary *)

Lemma dict_get_set_same (k : string) (v : TxVal) (d : TxDict) :
  dict_get k (dict_set k v d) = Some v.
Proof.
  unfold dict_get.
  induction d as [|[k' v'] d IH]; simpl.
  - now rewrite String.eqb_refl.
  - destruct (String.eqb k' k) eqn:E; simpl.
    + now rewrite String.eqb_refl.
    + now rewrite E.
Qed.

Lemma dict_get_set_other (k k' : string) (v : TxVal) (d : TxDict) :
  k' <> k -> dict_get k' (dict_set k v d) = dict_get k' d.
Proof.
  intros Hne. unfold dict_get.
  assert (Hk : String.eqb k k' = false)
    by (apply String.eqb_neq; congruence).
  induction d as [|[k0 v0] d IH]; simpl.
  - now rewrite Hk.
  - destruct (String.eqb k0 k) eqn:E; simpl.
    + apply String.eqb_eq in E. subst k0. now rewrite Hk.
    + destruct (String.eqb k0 k'); [reflexivity|exact IH].
Qed.

Lemma dict_mem_set_same (k : string) (v : TxVal) (d : TxDict) :
  dict_mem k (dict_set k v d) = true.
Proof.
  unfold dict_mem.
  induction d as [|[k' v'] d IH]; simpl.
  - now rewrite String.eqb_refl.
  - destruct (String.eqb k' k) eqn:E; simpl.
    + now rewrite String.eqb_refl.
    + now rewrite E.
Qed.

Lemma dict_mem_set_other (k k' : string) (v : TxVal) (d : TxDict) :
  k' <> k -> dict_mem k' (dict_set k v d) = dict_mem k' d.
Proof.
  intros Hne. unfold dict_mem.
  assert (Hk : String.eqb k k' = false)
    by (apply String.eqb_neq; congruence).
  induction d as [|[k0 v0] d IH]; simpl.
  - now rewrite Hk.
  - destruct (String.eqb k0 k) eqn:E; simpl.
    + apply String.eqb_eq in E. subst k0. now rewrite Hk.
    + now rewrite IH.
Qed.

(** What [add_gas_price] gives is priced, and differs from what it was
    given in [gasPrice] at most. *)
Lemma add_gas_price_ok (self : BlockchainClient) (tx priced : TxDict) :
  add_gas_price self tx = Ok priced ->
  dict_mem "maxFeePerGas" priced || dict_mem "gasPrice" priced = true /\
  forall k, k <> "gasPrice"%string -> dict_get k priced = dict_get k tx.
Proof.
  unfold add_gas_price.
  destruct (dict_mem "maxFeePerGas" tx) eqn:E1; simpl.
  - intros [= <-]. now rewrite E1.
  - destruct (dict_mem "gasPrice" tx) eqn:E2; simpl.
    + intros [= <-]. rewrite E2. now rewrite orb_true_r.
    + destruct (gas_price (w3 self)); simpl; [|discriminate].
      intros [= <-]. rewrite dict_mem_set_same, orb_true_r.
      split; [reflexivity|]. intros k Hk. now apply dict_get_set_other.
Qed.

(* ================================================================== *)
(** ** The pipeline: what is broadcast, and when *)

(** X2: Whatever happens in [_sign_and_send_transaction], the database is left
    as it was and at most one raw transaction joins the broadcast ones. *)
Theorem sign_and_send_frame (self : BlockchainClient) (tx : TxDict)
    (w : World) :
  let r := _sign_and_send_transaction self tx w in
  db (snd r) = db w /\
  (broadcast (snd r) = broadcast w \/
   exists raw, broadcast (snd r) = raw :: broadcast w).
Proof.
  unfold _sign_and_send_transaction.
  break_match; simpl; split; try reflexivity; eauto.
Qed.

(** A receipt of the pipeline tells what was signed and sent. *)
Lemma pipeline_receipt (self : BlockchainClient) (tx : TxDict)
    (w : World) (receipt : TxReceipt) :
  fst (_sign_and_send_transaction self tx w) = Ok receipt ->
  exists key priced signed,
    private_key self = Some key /\
    add_gas_price self tx = Ok priced /\
    sign_transaction (w3 self) priced key = Ok signed /\
    snd (_sign_and_send_transaction self tx w)
      = mkWorld (db w) (raw_transaction signed :: broadcast w).
Proof.
  unfold _sign_and_send_transaction.
  destruct (private_key self) as [key|] eqn:Hkey; [|discriminate].
  destruct (add_gas_price self tx) as [priced|] eqn:Hprice; [|discriminate].
  destruct (sign_transaction (w3 self) priced key) as [signed|] eqn:Hsign;
    [|discriminate].
  destruct (send_raw_transaction (w3 self) (raw_transaction signed))
    as [sent_hash|]; [|discriminate].
  destruct (wait_for_transaction_receipt (w3 self) sent_hash 120)
    as [chain_receipt|e]; [|destruct e; discriminate].
  intros _. exists key, priced, signed. repeat split; assumption.
Qed.



(* ================================================================== *)
(** ** The write methods of the client *)

(** What the write methods prepare and send, when a receipt comes back. *)
Lemma send_call_receipt (self : BlockchainClient) (calls : Web3Calls)
    (contract : Contract) (function : string) (args : list TxVal)
    (sender_address : string) (w : World) (receipt : TxReceipt) :
  fst (send_call self calls contract function args sender_address "Web3" w)
    = Ok receipt ->
  exists sender nonce key sent signed,
    to_checksum_address calls sender_address = Ok sender /\
    get_transaction_count calls sender = Ok nonce /\
    dict_get "chainId" sent = Some (VInt (chain_id self)) /\
    dict_get "nonce" sent = Some (VInt nonce) /\
    private_key self = Some key /\
    sign_transaction (w3 self) sent key = Ok signed /\
    snd (send_call self calls contract function args sender_address "Web3" w)
      = mkWorld (db w) (raw_transaction signed :: broadcast w).
Proof.
  unfold send_call.
  destruct (to_checksum_address calls sender_address) as [sender|] eqn:Hs;
    simpl; [|discriminate].
  destruct (build_transaction calls contract function args
              [("from"%string, VStr sender)]) as [tx_data|] eqn:Hb;
    simpl; [|discriminate].
  change (load_name write_method_locals blockchain_globals "Web3")
    with (Ok ObjOther). simpl.
  destruct (get_transaction_count calls sender) as [nonce|] eqn:Hn;
    simpl; [|discriminate].
  intros Hr.
  destruct (pipeline_receipt _ _ _ _ Hr)
    as (key & priced & signed & Hkey & Hprice & Hsign & Hw).
  destruct (add_gas_price_ok _ _ _ Hprice) as [_ Hkeep].
  exists sender, nonce, key, priced, signed.
  repeat split; try assumption.
  - rewrite Hkeep by discriminate.
    rewrite dict_get_set_other by discriminate.
    apply dict_get_set_same.
  - rewrite Hkeep by discriminate. apply dict_get_set_same.
Qed.

(** Through [with_contract], a receipt of the method is a receipt of the
    call it sends. *)
Lemma with_contract_receipt (r : Result Contract * ContractCache)
    (w : World) (k : Contract -> Result TxReceipt * World)
    (receipt : TxReceipt) :
  fst (fst (with_contract r w k)) = Ok receipt ->
  exists contract,
    fst r = Ok contract /\ fst (k contract) = Ok receipt /\
    snd (with_contract r w k) = snd (k contract).
Proof.
  unfold with_contract.
  destruct (fst r) as [contract|]; simpl; [|discriminate].
  intros H. now exists contract.
Qed.

(** X4: When [instant_withdraw], [request_withdrawal], [process_withdrawal] or
    [approve_token] returns a receipt, the transaction that was signed
    carries the chain id of the client and the current transaction count of
    the sender as its nonce, whatever [build_transaction] had put there, and
    its raw signature is the one thing added to the broadcast ones. *)
Theorem write_methods_sign_chain_id_and_nonce (self : BlockchainClient)
    (calls : Web3Calls) (address other_address sender_address : string)
    (amount : Z) (cache : ContractCache) (w : World) (receipt : TxReceipt)
    (method : BlockchainClient -> Web3Calls -> string -> Z -> string
              -> ContractCache -> World
              -> Result TxReceipt * ContractCache * World) :
  In method [instant_withdraw; request_withdrawal; client_process_withdrawal;
             fun self calls token amount owner =>
               approve_token self calls token other_address amount owner] ->
  fst (fst (method self calls address amount sender_address cache w))
    = Ok receipt ->
  exists sender nonce key sent signed,
    to_checksum_address calls sender_address = Ok sender /\
    get_transaction_count calls sender = Ok nonce /\
    dict_get "chainId" sent = Some (VInt (chain_id self)) /\
    dict_get "nonce" sent = Some (VInt nonce) /\
    private_key self = Some key /\
    sign_transaction (w3 self) sent key = Ok signed /\
    snd (method self calls address amount sender_address cache w)
      = mkWorld (db w) (raw_transaction signed :: broadcast w).
Proof.
  intros Hin Hr.
  assert (Hcall : exists contract function args,
            fst (send_call self calls contract function args sender_address
                   "Web3" w) = Ok receipt /\
            snd (method self calls address amount sender_address cache w)
            = snd (send_call self calls contract function args
                     sender_address "Web3" w)).
  { simpl in Hin.
    destruct Hin as [<-|[<-|[<-|[<-|[]]]]];
      apply with_contract_receipt in Hr;
      destruct Hr as (contract & _ & Hk & Hw).
    - now exists contract, "instantWithdraw"%string, [VInt amount].
    - now exists contract, "requestWithdrawal"%string, [VInt amount].
    - now exists contract, "processWithdrawal"%string, [VInt amount].
    - revert Hk Hw. unfold approve_token. cbv beta.
      destruct (to_checksum_address calls other_address) as [spender|];
        [|discriminate].
      intros Hk Hw.
      now exists contract, "approve"%string, [VStr spender; VInt amount]. }
  destruct Hcall as (contract & function & args & Hk & ->).
  exact (send_call_receipt _ _ _ _ _ _ _ _ Hk).
Qed.

Lemma write_methods_sign_chain_id_and_nonce_witness :
  exists sender nonce key sent signed,
    to_checksum_address sample_calls sample_wallet = Ok sender /\
    get_transaction_count sample_calls sender = Ok nonce /\
    dict_get "chainId" sent = Some (VInt (chain_id confirming_client)) /\
    dict_get "nonce" sent = Some (VInt nonce) /\
    private_key confirming_client = Some key /\
    sign_transaction (w3 confirming_client) sent key = Ok signed /\
    snd (instant_withdraw confirming_client sample_calls sample_vault_address
           500 sample_wallet [] sample_world)
      = mkWorld (db sample_world)
          (raw_transaction signed :: broadcast sample_world).
Proof.
  apply (write_methods_sign_chain_id_and_nonce confirming_client sample_calls
           sample_vault_address sample_vault_address sample_wallet 500 []
           sample_world (mkTxReceipt "0xa1b2" true 100 21000 None [])
           instant_withdraw).
  - simpl. left. reflexivity.
  - reflexivity.
Defined.

(** X5: [BlockchainClient.deposit] never sends anything: it reaches the nonce
    through the name [Web2], which nothing binds, so every call ends in an
    exception, with nothing signed or broadcast and the database as it
    was; when the contract, the addresses and [build_transaction] raise
    nothing, the exception is the NameError. *)
Theorem client_deposit_never_submits (self : BlockchainClient)
    (calls : Web3Calls) (vault_address : string) (amount : Z)
    (user_address : string) (cache : ContractCache) (w : World) :
  let r := client_deposit self calls vault_address amount user_address
             cache w in
  (exists e, fst (fst r) = Raise e) /\
  snd r = w /\
  (forall vault receiver tx_data,
     fst (get_vault_contract calls cache vault_address) = Ok vault ->
     to_checksum_address calls user_address = Ok receiver ->
     build_transaction calls vault "deposit" [VInt amount; VStr receiver]
       [("from"%string, VStr receiver)] = Ok tx_data ->
     fst (fst r) = Raise (NameError "Web2")).
Proof.
  unfold client_deposit, with_contract, send_call.
  change (load_name write_method_locals blockchain_globals "Web2")
    with (@Raise PyObj (NameError "Web2")).
  destruct (fst (get_vault_contract calls cache vault_address))
    as [vault|e0] eqn:Hv; simpl.
  - destruct (to_checksum_address calls user_address) as [receiver|e1];
      simpl.
    + destruct (build_transaction calls vault "deposit"
                  [VInt amount; VStr receiver]
                  [("from"%string, VStr receiver)]) as [tx_data|e2] eqn:Hb;
        simpl.
      * repeat split; eauto.
      * repeat split; eauto.
        intros vault' receiver' tx_data' [= <-] [= <-]. congruence.
    + repeat split; eauto. intros; discriminate.
  - repeat split; eauto. intros; discriminate.
Qed.

(* ================================================================== *)
(** ** _build_transaction *)



(* ================================================================== *)
(** ** The contract cache *)

Lemma cache_lookup_snoc (cache : ContractCache) (address : string)
    (contract : Contract) :
  cache_lookup cache address = None ->
  cache_lookup (cache ++ [(address, contract)]) address = Some contract.
Proof.
  unfold cache_lookup. rewrite find_snoc.
  destruct (find _ cache); simpl; [discriminate|].
  now rewrite String.eqb_refl.
Qed.

(** X7: The cache of [get_contract] is keyed by the address alone: once a
    contract has been returned for an address, every later request for
    that address returns that same contract and leaves the cache as it is,
    whatever ABI is asked for.  A contract first built for an address has
    the ABI of that first request: after [get_vault_contract(a)],
    [get_token_contract(a)] is a contract with the vault ABI. *)
Theorem contract_cache_ignores_abi (calls : Web3Calls)
    (cache cache' : ContractCache) (address : string) (abi abi' : ABI)
    (contract : Contract) :
  get_contract calls cache address abi = (Ok contract, cache') ->
  get_contract calls cache' address abi' = (Ok contract, cache') /\
  (cache_lookup cache address = None -> c_abi contract = abi).
Proof.
  unfold get_contract.
  destruct (cache_lookup cache address) as [c|] eqn:Hc.
  - intros [= <- <-]. rewrite Hc. split; [reflexivity|discriminate].
  - destruct (to_checksum_address calls address) as [checksum|];
      [|discriminate].
    intros [= <- <-].
    rewrite cache_lookup_snoc by assumption. split; reflexivity.
Qed.

Lemma contract_cache_ignores_abi_witness :
  get_token_contract sample_calls
    [(sample_vault_address, mkContract sample_vault_address TMVAULT_ABI)]
    sample_vault_address
  = (Ok (mkContract sample_vault_address TMVAULT_ABI),
     [(sample_vault_address, mkContract sample_vault_address TMVAULT_ABI)]) /\
  (cache_lookup [] sample_vault_address = None ->
   c_abi (mkContract sample_vault_address TMVAULT_ABI) = TMVAULT_ABI).
Proof.
  apply (contract_cache_ignores_abi sample_calls [] _ sample_vault_address
           TMVAULT_ABI USDC_ABI).
  reflexivity.
Defined.

(* ================================================================== *)
(** ** Fresh keys and appended rows *)

Lemma next_id_fresh (ids : list Z) (x : Z) : In x ids -> x < next_id ids.
Proof.
  unfold next_id. induction ids as [|y ids IH]; cbn [fold_right In]; [easy|].
  intros [->|H]; [lia|]. specialize (IH H). lia.
Qed.

Lemma find_next_id {A : Type} (key : A -> Z) (l : list A) :
  find (fun x => key x =? next_id (map key l)) l = None.
Proof.
  destruct (find _ l) as [x|] eqn:E; [|reflexivity].
  apply find_some in E. destruct E as [Hin Heq].
  apply Z.eqb_eq in Heq.
  pose proof (next_id_fresh (map key l) (key x) (in_map key l x Hin)). lia.
Qed.




(** What [get_or_create_user] leaves alone, and what it guarantees. *)
Lemma get_or_create_user_frame (d : DB) (address : string) :
  let r := get_or_create_user d address in
  vaults (snd r) = vaults d /\
  protocols (snd r) = protocols d /\
  vault_users (snd r) = vault_users d /\
  transactions (snd r) = transactions d /\
  withdrawal_requests (snd r) = withdrawal_requests d /\
  find (is_wallet address) (users (snd r)) = Some (fst r).
Proof.
  unfold get_or_create_user.
  destruct (find (is_wallet address) (users d)) as [user|] eqn:E; simpl.
  - repeat split. exact E.
  - repeat split. rewrite find_snoc, E. unfold is_wallet. simpl.
    now rewrite String.eqb_refl.
Qed.

(* ================================================================== *)
(** ** Deposits *)

(** A deposit that passes its checks is answered as completed. *)
Lemma deposit_accepted (blockchain : BlockchainClient) (vault_id : Z)
    (deposit_data : DepositRequest) (w : World) (vault : Vault)
    (amount_wei : Z) :
  validate_gt0 (dr_amount deposit_data) = true ->
  find (is_vault vault_id) (vaults (db w)) = Some vault ->
  decimal_to_wei (dr_amount deposit_data) = Ok amount_wei ->
  exists response,
    fst (deposit blockchain vault_id deposit_data w) = Ok response /\
    dp_status response = TransactionStatus.COMPLETED.
Proof.
  intros Hval Hv Hwei. unfold deposit. rewrite Hval, Hv. cbn [negb].
  destruct (get_or_create_user (db w) (dr_user_address deposit_data))
    as [user d1].
  rewrite Hwei. eexists. split; reflexivity.
Qed.



(** X9: A deposit that fails in the conversion of its amount to minor units
    fails after the user was committed: a wallet the database does not know
    is left in [users], with everything else as it was. *)
Theorem failed_deposit_leaves_new_user (blockchain : BlockchainClient)
    (vault_id : Z) (deposit_data : DepositRequest) (w : World)
    (vault : Vault) (e : Exn) :
  validate_gt0 (dr_amount deposit_data) = true ->
  find (is_vault vault_id) (vaults (db w)) = Some vault ->
  find (is_wallet (dr_user_address deposit_data)) (users (db w)) = None ->
  decimal_to_wei (dr_amount deposit_data) = Raise e ->
  let r := deposit blockchain vault_id deposit_data w in
  fst r = Raise e /\
  snd r =
    commit w
      (set_users (db w)
         (users (db w) ++
          [mkUser (next_id (map u_id (users (db w))))
             (dr_user_address deposit_data)])).
Proof.
  intros Hval Hv Hu Hwei. unfold deposit, get_or_create_user.
  rewrite Hval, Hv, Hu, Hwei. split; reflexivity.
Qed.

Lemma failed_deposit_leaves_new_user_witness :
  let request := mkDepositRequest sample_vault_address
                   (mkDecimal 1 999999) "0xnew" in
  let r := deposit (sample_client 0 0) 1 request sample_world in
  fst r = Raise Overflow /\
  snd r = commit sample_world
            (set_users (db sample_world)
               (users (db sample_world) ++ [mkUser 2 "0xnew"])).
Proof.
  intros request.
  apply (failed_deposit_leaves_new_user (sample_client 0 0) 1 request
           sample_world sample_vault Overflow); reflexivity.
Defined.

(* ================================================================== *)
(** ** Rejected requests *)

(** X10: A request that [withdraw], [process_withdrawal], [allocate_to_protocol],
    [deallocate_from_protocol], [delete_protocol], [create_vault],
    [delete_vault] or [create_protocol] answers with an error changes
    nothing: the database and the broadcast transactions are as they
    were. *)
Theorem rejected_requests_change_nothing (blockchain : BlockchainClient)
    (vault_id protocol_id withdrawal_id utcnow : Z)
    (withdraw_data : WithdrawRequest) (amount : Decimal)
    (vault_data : VaultCreate) (protocol_data : ProtocolCreate) (w : World) :
  let unchanged {A : Type} (r : Result A * World) :=
    match fst r with
    | Raise _ => snd r = w
    | Ok _ => True
    end in
  unchanged (withdraw blockchain vault_id withdraw_data w) /\
  unchanged (process_withdrawal blockchain vault_id withdrawal_id utcnow w) /\
  unchanged (allocate_to_protocol protocol_id amount w) /\
  unchanged (deallocate_from_protocol protocol_id amount w) /\
  unchanged (delete_protocol protocol_id w) /\
  unchanged (create_vault vault_data w) /\
  unchanged (delete_vault vault_id w) /\
  unchanged (create_protocol protocol_data w).
Proof.
  assert (H : forall (A : Type) (r : Result A * World),
            (forall e, fst r = Raise e -> snd r = w) ->
            match fst r with Raise _ => snd r = w | Ok _ => True end).
  { intros A r Hr. destruct (fst r); eauto. }
  cbv zeta. repeat split; apply H; intros e.
  - unfold withdraw. break_match; simpl; intros; first [reflexivity|discriminate].
  - unfold process_withdrawal.
    break_match; simpl; intros; first [reflexivity|discriminate].
  - unfold allocate_to_protocol.
    break_match; simpl; intros; first [reflexivity|discriminate].
  - unfold deallocate_from_protocol.
    break_match; simpl; intros; first [reflexivity|discriminate].
  - unfold delete_protocol.
    break_match; simpl; intros; first [reflexivity|discriminate].
  - unfold create_vault.
    break_match; simpl; intros; first [reflexivity|discriminate].
  - unfold delete_vault.
    break_match; simpl; intros; first [reflexivity|discriminate].
  - unfold create_protocol.
    break_match; simpl; intros; first [reflexivity|discriminate].
Qed.

(* ================================================================== *)
(** ** Creating and deleting vaults *)

Lemma in_page {A : Type} (skip limit : Z) (l : list A) (x : A) :
  In x (page skip limit l) -> In x l.
Proof.
  unfold page. intros H.
  rewrite <- (firstn_skipn (Z.to_nat skip) l). apply in_or_app. right.
  rewrite <- (firstn_skipn (Z.to_nat limit) (skipn (Z.to_nat skip) l)).
  apply in_or_app. now left.
Qed.

(** With unique keys, a row of the updated table that has the key is the
    updated row. *)
Lemma in_update_first_key {A : Type} (key : A -> Z) (id : Z) (f : A -> A)
    (l : list A) (x : A) :
  NoDup (map key l) ->
  In x (update_first (fun y => key y =? id) f l) ->
  key x = id ->
  (forall y, key (f y) = key y) ->
  exists y, In y l /\ x = f y.
Proof.
  intros Hnd Hin Hx Hf.
  induction l as [|y r IH]; simpl in *; [contradiction|].
  apply NoDup_cons_iff in Hnd. destruct Hnd as [Hnotin Hnd'].
  destruct (Z.eqb_spec (key y) id) as [Hy|Hy].
  - destruct Hin as [<-|Hin]; [exists y; auto|].
    exfalso. apply Hnotin. rewrite Hy, <- Hx. now apply in_map.
  - destruct Hin as [<-|Hin]; [contradiction|].
    destruct (IH Hnd' Hin) as (z & Hz & ->). exists z. auto.
Qed.

(** X11: A vault that [create_vault] returns starts with zero totals and active
    under a fresh id, is what a lookup by that id or by its address finds
    afterwards, and blocks its address: creating a vault with the same
    address again is answered 409. *)
Theorem create_vault_registers (vault_data : VaultCreate) (w : World)
    (vault : Vault) :
  fst (create_vault vault_data w) = Ok vault ->
  let w' := snd (create_vault vault_data w) in
  vault = mkVault (next_id (map v_id (vaults (db w)))) (vc_address vault_data)
            (vc_asset_address vault_data) 0 0 0 0 true /\
  (forall v, In v (vaults (db w)) -> v_id v <> v_id vault) /\
  (exists protocols user_count,
     get_vault (v_id vault) (db w') = Ok (vault, protocols, user_count)) /\
  get_vault_by_address (vc_address vault_data) (db w')
    = Ok (vault_detail vault (db w')) /\
  create_vault vault_data w'
    = (Raise (HTTPException 409 "Vault with this address already exists"),
       w').
Proof.
  unfold create_vault.
  destruct (find (is_vault_address (vc_address vault_data)) (vaults (db w)))
    as [existing|] eqn:E; simpl; [discriminate|].
  intros [= <-]. cbn [v_id].
  assert (Haddr : find (is_vault_address (vc_address vault_data))
                    (vaults (db w) ++
                     [mkVault (next_id (map v_id (vaults (db w))))
                        (vc_address vault_data) (vc_asset_address vault_data)
                        0 0 0 0 true])
                  = Some (mkVault (next_id (map v_id (vaults (db w))))
                            (vc_address vault_data)
                            (vc_asset_address vault_data) 0 0 0 0 true)).
  { rewrite find_snoc, E. unfold is_vault_address. cbn [v_address].
    now rewrite String.eqb_refl. }
  split; [reflexivity|]. split.
  - intros v Hin Heq.
    pose proof (next_id_fresh (map v_id (vaults (db w))) (v_id v)
                  (in_map v_id _ _ Hin)). lia.
  - split.
    + unfold get_vault. cbn [db vaults set_vaults commit].
      rewrite find_snoc. unfold is_vault at 1.
      rewrite (find_next_id v_id). unfold is_vault. cbn [v_id].
      rewrite Z.eqb_refl. do 2 eexists. reflexivity.
    + unfold get_vault_by_address. cbn [db vaults set_vaults commit].
      rewrite Haddr. split; reflexivity.
Qed.

Lemma create_vault_registers_witness :
  let vault_data := mkVaultCreate "0xvault2" sample_asset_address in
  let w' := snd (create_vault vault_data sample_world) in
  mkVault 2 "0xvault2" sample_asset_address 0 0 0 0 true
  = mkVault (next_id (map v_id (vaults (db sample_world))))
      (vc_address vault_data) (vc_asset_address vault_data) 0 0 0 0 true /\
  (forall v, In v (vaults (db sample_world)) ->
             v_id v <> v_id (mkVault 2 "0xvault2" sample_asset_address
                               0 0 0 0 true)) /\
  (exists protocols user_count,
     get_vault (v_id (mkVault 2 "0xvault2" sample_asset_address 0 0 0 0 true))
       (db w')
     = Ok (mkVault 2 "0xvault2" sample_asset_address 0 0 0 0 true,
           protocols, user_count)) /\
  get_vault_by_address (vc_address vault_data) (db w')
    = Ok (vault_detail (mkVault 2 "0xvault2" sample_asset_address
                          0 0 0 0 true) (db w')) /\
  create_vault vault_data w'
    = (Raise (HTTPException 409 "Vault with this address already exists"),
       w').
Proof.
  intros vault_data.
  apply (create_vault_registers vault_data sample_world
           (mkVault 2 "0xvault2" sample_asset_address 0 0 0 0 true)).
  reflexivity.
Defined.

(** X12: [create_vault] keeps the keys of the table unique: if no two vaults
    share an id or an address before, none do after, whatever the answer. *)
Theorem create_vault_keeps_keys_unique (vault_data : VaultCreate)
    (w : World) :
  NoDup (map v_id (vaults (db w))) ->
  NoDup (map v_address (vaults (db w))) ->
  let w' := snd (create_vault vault_data w) in
  NoDup (map v_id (vaults (db w'))) /\
  NoDup (map v_address (vaults (db w'))).
Proof.
  intros Hid Haddr. unfold create_vault.
  destruct (find (is_vault_address (vc_address vault_data)) (vaults (db w)))
    as [existing|] eqn:E; simpl; [now split|].
  rewrite !map_app. simpl. split.
  - apply NoDup_app; [assumption|repeat constructor; easy|].
    intros x Hin [<-|[]].
    pose proof (next_id_fresh _ _ Hin). lia.
  - apply NoDup_app; [assumption|repeat constructor; easy|].
    intros x Hin [<-|[]].
    apply in_map_iff in Hin. destruct Hin as (v & Hv & Hin).
    apply (find_none _ _ E) in Hin. unfold is_vault_address in Hin.
    rewrite Hv, String.eqb_refl in Hin. discriminate.
Qed.

Lemma create_vault_keeps_keys_unique_witness :
  let w' := snd (create_vault (mkVaultCreate "0xvault2" sample_asset_address)
                   sample_world) in
  NoDup (map v_id (vaults (db w'))) /\
  NoDup (map v_address (vaults (db w'))).
Proof.
  apply (create_vault_keeps_keys_unique
           (mkVaultCreate "0xvault2" sample_asset_address) sample_world).
  - simpl. repeat constructor. easy.
  - simpl. repeat constructor. easy.
Defined.

(** X13: [delete_vault] only clears [is_active]: the vault drops out of the
    default listing, but it is still found by its id, with its totals, and
    a deposit to it is accepted and completed as before. *)
Theorem deleted_vault_still_takes_deposits (vault_id : Z) (w : World) :
  fst (delete_vault vault_id w) = Ok tt ->
  NoDup (map v_id (vaults (db w))) ->
  let w' := snd (delete_vault vault_id w) in
  (exists vault,
     find (is_vault vault_id) (vaults (db w)) = Some vault /\
     find (is_vault vault_id) (vaults (db w'))
       = Some (mkVault (v_id vault) (v_address vault) (v_asset_address vault)
                 (total_deposits vault) (total_allocated vault)
                 (total_yield vault) (tvl vault) false)) /\
  (forall skip limit listed v,
     list_vaults skip limit true (db w') = Ok listed ->
     In v listed -> v_id v <> vault_id) /\
  (forall blockchain deposit_data amount_wei,
     validate_gt0 (dr_amount deposit_data) = true ->
     decimal_to_wei (dr_amount deposit_data) = Ok amount_wei ->
     exists response,
       fst (deposit blockchain vault_id deposit_data w') = Ok response /\
       dp_status response = TransactionStatus.COMPLETED).
Proof.
  unfold delete_vault.
  destruct (find (is_vault vault_id) (vaults (db w))) as [vault|] eqn:E;
    simpl; [|discriminate].
  intros _ Hnd.
  assert (Hfind : find (is_vault vault_id)
                    (update_first (is_vault vault_id)
                       (fun v => mkVault (v_id v) (v_address v)
                                   (v_asset_address v) (total_deposits v)
                                   (total_allocated v) (total_yield v)
                                   (tvl v) false)
                       (vaults (db w)))
                  = Some (mkVault (v_id vault) (v_address vault)
                            (v_asset_address vault) (total_deposits vault)
                            (total_allocated vault) (total_yield vault)
                            (tvl vault) false)).
  { erewrite find_update_first_hit;
      [reflexivity|intros y Hy; exact Hy|exact E]. }
  split; [exists vault; split; [reflexivity|exact Hfind]|]. split.
  - intros skip limit listed v. unfold list_vaults.
    destruct (validate_page skip limit); simpl; [|discriminate].
    intros [= <-] Hin Hid.
    apply in_page in Hin. apply filter_In in Hin. destruct Hin as [Hin Hact].
    destruct (in_update_first_key v_id vault_id _ _ _ Hnd Hin Hid)
      as (y & _ & ->); [reflexivity|].
    discriminate.
  - intros blockchain deposit_data amount_wei Hval Hwei.
    exact (deposit_accepted blockchain vault_id deposit_data
             (commit w (set_vaults (db w) _)) _ amount_wei Hval Hfind Hwei).
Qed.

Lemma deleted_vault_still_takes_deposits_witness :
  exists response,
    fst (deposit (sample_client 0 0) 1
           (mkDepositRequest sample_vault_address (dec 250) sample_wallet)
           (snd (delete_vault 1 sample_world))) = Ok response /\
    dp_status response = TransactionStatus.COMPLETED.
Proof.
  destruct (deleted_vault_still_takes_deposits 1 sample_world) as (_ & _ & H).
  - reflexivity.
  - simpl. repeat constructor. easy.
  - apply (H (sample_client 0 0)
             (mkDepositRequest sample_vault_address (dec 250) sample_wallet)
             250000000); reflexivity.
Defined.

(* ================================================================== *)
(** ** Listing withdrawal requests *)

(** X14: The filters of [list_withdrawals] fall away silently: with a user
    address that no user has, the answer is the one without a user filter,
    the requests of every user of the vault; with a status that names no
    state, the answer is the one without a status filter. *)
Theorem list_withdrawals_drops_unknown_filters (vault_id : Z)
    (user_address status_filter : option string) (address status : string)
    (d : DB) :
  (user_address = Some address ->
   find (is_wallet address) (users d) = None ->
   list_withdrawals vault_id user_address status_filter d
   = list_withdrawals vault_id None status_filter d) /\
  (status_filter = Some status ->
   status_of_string status = None ->
   list_withdrawals vault_id user_address status_filter d
   = list_withdrawals vault_id user_address None d).
Proof.
  split.
  - intros -> Hnone. unfold list_withdrawals. cbn [truthy_str].
    rewrite Hnone. now destruct (negb (address =? "")%string).
  - intros -> Hnone. unfold list_withdrawals. cbn [truthy_str].
    rewrite Hnone. now destruct (negb (status =? "")%string).
Qed.

Lemma list_withdrawals_drops_unknown_filters_witness :
  list_withdrawals 1 (Some "0xnobody"%string) None (db queue_world)
  = [queued_request; ready_request] /\
  list_withdrawals 1 None (Some "pending"%string) (db queue_world)
  = [queued_request; ready_request].
Proof.
  destruct (list_withdrawals_drops_unknown_filters 1 (Some "0xnobody"%string)
              None "0xnobody" "pending" (db queue_world)) as [Hu _].
  destruct (list_withdrawals_drops_unknown_filters 1 None
              (Some "pending"%string) "0xnobody" "pending" (db queue_world))
    as [_ Hs].
  split.
  - rewrite Hu; reflexivity.
  - rewrite Hs; reflexivity.
Defined.

(* ================================================================== *)
(** ** Vault statistics *)







(* ================================================================== *)
(** ** The stored balance behind a failed chain read *)

(** X17: When the chain read of [get_user_balance] fails, the answer is the
    stored balance, 0 for a user without a balance row, and no vault,
    balance or transaction is changed. *)
Theorem get_user_balance_falls_back (blockchain : BlockchainClient)
    (vault_id : Z) (user_address : string) (w : World) (vault : Vault)
    (e : Exn) :
  find (is_vault vault_id) (vaults (db w)) = Some vault ->
  get_balance blockchain (v_address vault) user_address = Raise e ->
  let r := get_user_balance blockchain vault_id user_address w in
  let user := fst (get_or_create_user (db w) user_address) in
  fst r = Ok (match find (is_vault_user vault_id (u_id user))
                      (vault_users (db w)) with
              | Some vault_user => balance vault_user
              | None => 0%Q
              end) /\
  vaults (db (snd r)) = vaults (db w) /\
  vault_users (db (snd r)) = vault_users (db w) /\
  transactions (db (snd r)) = transactions (db w).
Proof.
  intros Hv Hb. unfold get_user_balance. rewrite Hv.
  pose proof (get_or_create_user_frame (db w) user_address)
    as (Hvs & _ & Hvus & Hts & _ & _).
  destruct (get_or_create_user (db w) user_address) as [user d1].
  cbn [fst snd] in *. rewrite Hb. cbn [bind fst snd commit db].
  rewrite Hvus. repeat split; assumption.
Qed.

Lemma get_user_balance_falls_back_witness :
  let client := mkClient "http://localhost:8545" None 1
                  (mkWeb3 (fun _ _ => Raise (Web3Error "connection refused"))
                          (fun _ _ => Ok 0) (Ok 1)
                          (fun _ _ => Ok (mkSigned "0xf86c"))
                          (fun _ => Ok "0xa1b2"%string)
                          (fun _ _ => Raise TimeExhausted)) in
  let r := get_user_balance client 1 sample_wallet sample_world in
  fst r = Ok 10000%Q /\
  vaults (db (snd r)) = vaults (db sample_world) /\
  vault_users (db (snd r)) = vault_users (db sample_world) /\
  transactions (db (snd r)) = transactions (db sample_world).
Proof.
  intros client.
  apply (get_user_balance_falls_back client 1 sample_wallet sample_world
           sample_vault (Web3Error "connection refused")); reflexivity.
Defined.

(* ================================================================== *)
(** ** Protocols: creation, allocation and back, deactivation *)

Lemma sum_allocated_snoc (vault_id : Z) (l : list Protocol) (x : Protocol) :
  (sum_allocated vault_id (l ++ [x])
   == sum_allocated vault_id l + allocated_term vault_id x)%Q.
Proof.
  induction l as [|y l IH].
  - simpl. unfold allocated_term.
    destruct ((p_vault_id x =? vault_id) && p_is_active x); ring.
  - rewrite <- app_comm_cons, !sum_allocated_cons, IH. ring.
Qed.

(** X18: [create_protocol] preserves both allocation invariants, whatever it
    answers: a protocol it adds holds nothing. *)
Theorem create_protocol_preserves_allocation (protocol_data : ProtocolCreate)
    (w : World) :
  (allocation_equality (db w) ->
   allocation_equality (db (snd (create_protocol protocol_data w)))) /\
  (allocation_bound (db w) ->
   allocation_bound (db (snd (create_protocol protocol_data w)))).
Proof.
  unfold create_protocol.
  destruct (find (is_vault (pc_vault_id protocol_data)) (vaults (db w)))
    as [vault|]; [|split; trivial].
  destruct (find _ (protocols (db w))) as [existing|]; [split; trivial|].
  cbn [snd commit db]. split; intros H.
  - intros vault_id v Hfind. cbn [set_protocols vaults protocols] in *.
    rewrite sum_allocated_snoc, (H vault_id v Hfind).
    unfold allocated_term. cbn [allocated_amount].
    destruct (_ && _); ring.
  - now apply (allocation_bound_same (db w)).
Qed.

Lemma create_protocol_preserves_allocation_witness :
  allocation_equality
    (db (snd (create_protocol (mkProtocolCreate 1 "0xprotocol3")
                seeded_world))).
Proof.
  destruct (create_protocol_preserves_allocation
              (mkProtocolCreate 1 "0xprotocol3") seeded_world) as [E _].
  apply E. apply allocation_equalityb_spec. reflexivity.
Defined.










(* ================================================================== *)
(** ** Strings and decimal digits *)

Lemma string_append_assoc (a b c : string) :
  ((a ++ b) ++ c = a ++ (b ++ c))%string.
Proof.
  induction a as [|x a IH]; simpl; [reflexivity|now rewrite IH].
Qed.

Lemma string_append_nil_r (a : string) : (a ++ "")%string = a.
Proof.
  induction a as [|x a IH]; simpl; [reflexivity|now rewrite IH].
Qed.

Lemma substring_all (s : string) : substring 0 (String.length s) s = s.
Proof.
  induction s as [|c s IH]; simpl; [reflexivity|now rewrite IH].
Qed.

Lemma substring_none (n : nat) (s : string) : substring n 0 s = ""%string.
Proof.
  revert s. induction n as [|n IH]; intros s; destruct s; simpl;
    try reflexivity. apply IH.
Qed.

Lemma digits_fuel_acc (fuel : nat) (n : Z) (acc : string) :
  digits_fuel fuel n acc = (digits_fuel fuel n "" ++ acc)%string.
Proof.
  revert n acc. induction fuel as [|fuel IH]; intros n acc; simpl.
  - reflexivity.
  - destruct (n <? 10); [reflexivity|].
    rewrite (IH _ (String _ acc)), (IH _ (String _ "")).
    now rewrite string_append_assoc.
Qed.

(** With enough fuel the digits do not depend on it. *)
Lemma digits_fuel_enough (fuel fuel' : nat) (n : Z) (acc : string) :
  0 <= n < 2 ^ Z.of_nat fuel -> 0 <= n < 2 ^ Z.of_nat fuel' ->
  (1 <= fuel)%nat -> (1 <= fuel')%nat ->
  digits_fuel fuel n acc = digits_fuel fuel' n acc.
Proof.
  revert fuel' n acc.
  induction fuel as [|fuel IH]; intros fuel' n acc Hn Hn' Hf Hf'; [lia|].
  destruct fuel' as [|fuel']; [lia|]. simpl.
  destruct (Z.ltb_spec n 10) as [|Hge]; [reflexivity|].
  assert (Hhalf : forall k : nat, n < 2 ^ Z.of_nat (S k) ->
                  0 <= n / 10 < 2 ^ Z.of_nat k /\ (1 <= k)%nat).
  { intros k Hk. rewrite Nat2Z.inj_succ, Z.pow_succ_r in Hk by lia.
    split.
    - split; [apply Z.div_pos; lia|].
      apply Z.div_lt_upper_bound; lia.
    - destruct k; [simpl in Hk; lia|lia]. }
  destruct (Hhalf fuel (proj2 Hn)) as [H1 H2].
  destruct (Hhalf fuel' (proj2 Hn')) as [H1' H2'].
  now apply IH.
Qed.

Lemma str_int_fuel (n : Z) :
  0 <= n -> 0 <= n < 2 ^ Z.of_nat (S (Z.to_nat (Z.log2 n))).
Proof.
  intros Hn. split; [assumption|].
  rewrite Nat2Z.inj_succ, Z2Nat.id by apply Z.log2_nonneg.
  destruct (Z.eq_dec n 0) as [->|Hne]; [reflexivity|].
  assert (Hpos : 0 < n) by lia.
  apply Z.log2_spec in Hpos. lia.
Qed.

(** The digits of [n >= 10] are those of [n / 10] and the last one. *)
Lemma str_int_step (n : Z) :
  10 <= n ->
  str_int n = (str_int (n / 10) ++ String (digit_char (n mod 10)) "")%string.
Proof.
  intros Hn. unfold str_int at 1. cbn [digits_fuel].
  destruct (Z.ltb_spec n 10) as [|_]; [lia|].
  rewrite digits_fuel_acc. f_equal.
  assert (Hq : 0 <= n / 10) by (apply Z.div_pos; lia).
  assert (Hlog : 3 <= Z.log2 n).
  { change 3 with (Z.log2 8). apply Z.log2_le_mono. lia. }
  assert (Hlt : n / 10 < 2 ^ Z.log2 n).
  { assert (Hpos : 0 < n) by lia. apply Z.log2_spec in Hpos.
    rewrite Z.pow_succ_r in Hpos by apply Z.log2_nonneg.
    apply Z.div_lt_upper_bound; lia. }
  apply digits_fuel_enough.
  - rewrite Z2Nat.id by lia. lia.
  - now apply str_int_fuel.
  - lia.
  - lia.
Qed.

Lemma str_int_small (n : Z) :
  0 <= n < 10 -> str_int n = String (digit_char n) "".
Proof.
  intros Hn. unfold str_int. cbn [digits_fuel].
  destruct (Z.ltb_spec n 10) as [_|]; [|lia].
  now rewrite Z.mod_small by lia.
Qed.

Lemma str_int_nonempty (n : Z) : 0 <= n -> str_int n <> ""%string.
Proof.
  intros Hn. destruct (Z_lt_le_dec n 10) as [Hlt|Hge].
  - rewrite str_int_small by lia. discriminate.
  - rewrite str_int_step by assumption.
    destruct (str_int (n / 10)); discriminate.
Qed.

(* ================================================================== *)
(** ** rstrip *)

Lemma rstrip_snoc_same (c : Ascii.ascii) (s : string) :
  rstrip c (s ++ String c "") = rstrip c s.
Proof.
  induction s as [|a s IH]; simpl.
  - now rewrite Ascii.eqb_refl.
  - now rewrite IH.
Qed.

Lemma rstrip_snoc_other (c a : Ascii.ascii) (s : string) :
  Ascii.eqb a c = false ->
  rstrip c (s ++ String a "") = (s ++ String a "")%string.
Proof.
  intros Ha. induction s as [|b s IH]; simpl.
  - now rewrite Ha.
  - rewrite IH. destruct s; reflexivity.
Qed.

Lemma digit_char_not_point (d : Z) :
  0 <= d < 10 -> Ascii.eqb (digit_char d) char_point = false.
Proof.
  intros Hd.
  assert (H : d = 0 \/ d = 1 \/ d = 2 \/ d = 3 \/ d = 4 \/ d = 5 \/ d = 6
              \/ d = 7 \/ d = 8 \/ d = 9) by lia.
  repeat (destruct H as [->|H]; [reflexivity|]). now subst d.
Qed.

Lemma digit_char_not_zero (d : Z) :
  0 < d < 10 -> Ascii.eqb (digit_char d) (digit_char 0) = false.
Proof.
  intros Hd.
  assert (H : d = 1 \/ d = 2 \/ d = 3 \/ d = 4 \/ d = 5 \/ d = 6
              \/ d = 7 \/ d = 8 \/ d = 9) by lia.
  repeat (destruct H as [->|H]; [reflexivity|]). now subst d.
Qed.

(** [str(n)] ends in the digit [n mod 10]. *)
Lemma str_int_last (n : Z) :
  0 <= n ->
  exists s, str_int n = (s ++ String (digit_char (n mod 10)) "")%string.
Proof.
  intros Hn. destruct (Z_lt_le_dec n 10) as [Hlt|Hge].
  - exists ""%string. rewrite str_int_small, Z.mod_small by lia. reflexivity.
  - exists (str_int (n / 10)). now apply str_int_step.
Qed.

(* ================================================================== *)
(** ** The balance string *)

(** A positive integer is printed by its digits. *)
Lemma format_f_integer (n : Z) :
  0 <= n -> format_f (mkDecimal n 0) = str_int n.
Proof.
  intros Hn. unfold format_f. cbn [coef expo].
  rewrite andb_false_r.
  destruct (Z.ltb_spec n 0) as [|_]; [lia|].
  rewrite Z.abs_eq by assumption. rewrite Z.add_0_l.
  destruct (Z.ltb_spec (Z.of_nat (String.length (str_int n))) 0) as [|_];
    [lia|].
  rewrite Z.ltb_irrefl, Nat2Z.id, Z.sub_diag. cbn [Z.to_nat].
  rewrite substring_all, substring_none.
  pose proof (str_int_nonempty n Hn).
  destruct (str_int n); [contradiction|].
  cbn [append]. now rewrite string_append_nil_r.
Qed.

Lemma from_decimal_times_ten (m : Z) :
  0 < m ->
  from_decimal (mkDecimal (m * 10) 0) = from_decimal (mkDecimal m 0).
Proof.
  intros Hm. unfold from_decimal.
  rewrite !format_f_integer by lia.
  rewrite (str_int_step (m * 10)) by lia.
  rewrite Z.div_mul, Z.mod_mul by lia.
  now rewrite rstrip_snoc_same.
Qed.

Lemma from_decimal_no_trailing_zero (m : Z) :
  0 < m -> m mod 10 <> 0 ->
  from_decimal (mkDecimal m 0) = str_int m.
Proof.
  intros Hm Hmod. unfold from_decimal.
  rewrite format_f_integer by lia.
  destruct (str_int_last m ltac:(lia)) as [s ->].
  pose proof (Z.mod_pos_bound m 10 ltac:(lia)).
  rewrite rstrip_snoc_other by (apply digit_char_not_zero; lia).
  apply rstrip_snoc_other. apply digit_char_not_point. lia.
Qed.

Lemma integer_zeros_stripped (m k : Z) :
  0 < m -> m mod 10 <> 0 -> 0 <= k ->
  from_decimal (mkDecimal (m * 10 ^ k) 0) = str_int m.
Proof.
  intros Hm Hmod Hk.
  revert k Hk.
  apply (natlike_ind
           (fun k => from_decimal (mkDecimal (m * 10 ^ k) 0) = str_int m)).
  - rewrite Z.pow_0_r, Z.mul_1_r.
    apply from_decimal_no_trailing_zero; assumption.
  - intros x Hx IH. rewrite Z.pow_succ_r by assumption.
    replace (m * (10 * 10 ^ x)) with (m * 10 ^ x * 10) by ring.
    rewrite from_decimal_times_ten; [exact IH|].
    pose proof (pow10_pos x Hx). nia.
Qed.

(** X21: [UserVaultBalanceResponse.from_decimal] strips the zeros of a whole
    number: a balance [Decimal(m * 10**k)], with [m] not a multiple of 10,
    is rendered as [str(m)], so 20000 reads "2"; and [Decimal(0)] is
    rendered as the empty string. *)
Theorem from_decimal_strips_integer_zeros (m k : Z) :
  0 < m -> m mod 10 <> 0 -> 0 <= k ->
  from_decimal (mkDecimal (m * 10 ^ k) 0) = str_int m /\
  from_decimal (mkDecimal 0 0) = ""%string.
Proof.
  intros Hm Hmod Hk. split; [|reflexivity].
  apply integer_zeros_stripped; assumption.
Qed.

Lemma from_decimal_strips_integer_zeros_witness :
  from_decimal (mkDecimal (2 * 10 ^ 4) 0) = str_int 2 /\
  from_decimal (mkDecimal 0 0) = ""%string.
Proof.
  apply (from_decimal_strips_integer_zeros 2 4); [lia|discriminate|lia].
Defined.

(** X22: A balance of whole units read from the chain is answered without its
    trailing zeros: when the contract reports [m * 10**k] units ([m] not a
    multiple of 10) in minor units, 6 decimals, the [balance] string of
    [get_user_balance] is [str(m)]. *)
Theorem chain_balance_string_loses_zeros (blockchain : BlockchainClient)
    (vault : Vault) (user_address : string) (m k : Z) :
  0 < m -> m mod 10 <> 0 -> 0 <= k ->
  m * 10 ^ k * 10 ^ 6 < 10 ^ prec ->
  get_balance blockchain (v_address vault) user_address
    = Ok (m * 10 ^ k * 10 ^ 6) ->
  chain_balance_string blockchain vault user_address = Ok (str_int m).
Proof.
  intros Hm Hmod Hk Hbound Hb. unfold chain_balance_string, wei_to_decimal.
  rewrite Hb. cbn [bind].
  pose proof (pow10_pos k Hk) as Hp.
  rewrite from_wei_whole_units.
  - cbn [bind]. f_equal.
    now apply (integer_zeros_stripped m k).
  - unfold Emax. lia.
  - rewrite Z.abs_eq by nia. exact Hbound.
Qed.

Lemma chain_balance_string_loses_zeros_witness :
  chain_balance_string (sample_client 0 20000000000) sample_vault
    sample_wallet = Ok (str_int 2).
Proof.
  apply (chain_balance_string_loses_zeros (sample_client 0 20000000000)
           sample_vault sample_wallet 2 4);
    [lia|discriminate|lia|reflexivity|reflexivity].
Defined.

(* ================================================================== *)
(** ** The mobile endpoints *)

(** X23: How [mobile_deposit_flow] decides for a known vault and user.  A failed
    allowance read, or an amount whose conversion raises, is no error: the
    answer is "approve".  A nonzero amount is converted as [decimal_to_wei]
    converts it, and the answer is "deposit" exactly when the allowance
    covers it.  An amount of zero counts as no amount: the answer is
    "deposit" only for an allowance of at least [2**256 - 1]. *)
Theorem mobile_deposit_flow_decision (calls : Web3Calls)
    (vault_address : string) (amount : option Decimal)
    (user_address : string) (d : DB) (vault : Vault) (user : User) :
  find (is_vault_address vault_address) (vaults d) = Some vault ->
  find (is_wallet user_address) (users d) = Some user ->
  let flow := mobile_deposit_flow calls vault_address amount user_address d in
  let approve := Ok (mkMobileDepositFlow "approve" vault_address amount true) in
  let deposit := Ok (mkMobileDepositFlow "deposit" vault_address amount false) in
  let allowance :=
    token_allowance calls (v_asset_address vault) user_address
      (v_address vault) in
  (forall e, allowance = Raise e -> flow = approve) /\
  (forall n a e,
     allowance = Ok n -> amount = Some a -> coef a <> 0 ->
     decimal_to_wei a = Raise e -> flow = approve) /\
  (forall n a amount_wei,
     allowance = Ok n -> amount = Some a -> coef a <> 0 ->
     decimal_to_wei a = Ok amount_wei ->
     flow = if n <? amount_wei then approve else deposit) /\
  (forall n,
     allowance = Ok n ->
     amount = None \/ (exists a, amount = Some a /\ coef a = 0) ->
     flow = if n <? 2 ^ 256 - 1 then approve else deposit).
Proof.
  intros Hv Hu flow approve deposit allowance.
  subst flow approve deposit allowance.
  unfold mobile_deposit_flow, allowance_probe. rewrite Hv, Hu.
  repeat split.
  - intros e ->. reflexivity.
  - intros n a e -> -> Ha. cbn [bind truthy_decimal].
    destruct (Z.eqb_spec (coef a) 0); [contradiction|]. cbn [negb].
    unfold decimal_to_wei, to_wei. cbn [Z.ltb Z.compare].
    destruct (mul a (of_int (10 ^ 6))); [discriminate|]. reflexivity.
  - intros n a amount_wei -> -> Ha. cbn [bind truthy_decimal].
    destruct (Z.eqb_spec (coef a) 0); [contradiction|]. cbn [negb].
    unfold decimal_to_wei, to_wei. cbn [Z.ltb Z.compare].
    destruct (mul a (of_int (10 ^ 6))); [|discriminate].
    cbn [bind]. intros [= <-]. now destruct (n <? _).
  - intros n -> [->|(a & -> & Ha)]; cbn [bind truthy_decimal].
    + now destruct (n <? _).
    + rewrite Ha. cbn [Z.eqb negb]. now destruct (n <? _).
Qed.

Lemma mobile_deposit_flow_decision_witness :
  mobile_deposit_flow sample_calls sample_vault_address (Some (dec 0))
    sample_wallet sample_db
  = Ok (mkMobileDepositFlow "approve" sample_vault_address (Some (dec 0))
          true).
Proof.
  destruct (mobile_deposit_flow_decision sample_calls sample_vault_address
              (Some (dec 0)) sample_wallet sample_db sample_vault
              (mkUser 1 sample_wallet) eq_refl eq_refl) as (_ & _ & _ & H).
  apply (H 0); [reflexivity|].
  right. exists (dec 0). split; reflexivity.
Defined.

(** X24: [mobile_wallet_info] shows a balance only for an active vault and only
    when it is positive: every entry of [vault_balances] is the address of
    an active vault of the database with the positive balance the user
    holds there, so what a user holds in a deleted vault is not shown.  The
    call changes no vault, balance or transaction. *)
Theorem mobile_wallet_info_entries (blockchain : BlockchainClient)
    (address : string) (w : World) :
  let r := mobile_wallet_info blockchain address w in
  let user := fst (get_or_create_user (db w) address) in
  (forall vault_address held,
     In (vault_address, held) (snd (fst r)) ->
     (0 < held)%Q /\
     exists vault vault_user,
       In vault (vaults (db w)) /\ v_is_active vault = true /\
       v_address vault = vault_address /\
       find (is_vault_user (v_id vault) (u_id user)) (vault_users (db w))
         = Some vault_user /\
       held = balance vault_user) /\
  vaults (db (snd r)) = vaults (db w) /\
  vault_users (db (snd r)) = vault_users (db w) /\
  transactions (db (snd r)) = transactions (db w).
Proof.
  unfold mobile_wallet_info.
  pose proof (get_or_create_user_frame (db w) address)
    as (Hvs & _ & Hvus & Hts & _ & _).
  destruct (get_or_create_user (db w) address) as [user d1].
  cbn [fst snd commit db] in *. rewrite Hvs, Hvus.
  split; [|repeat split; assumption].
  intros vault_address held Hin.
  apply in_flat_map in Hin. destruct Hin as (vault & Hvault & Hin).
  apply filter_In in Hvault. destruct Hvault as [Hvault Hact].
  destruct (find (is_vault_user (v_id vault) (u_id user)) (vault_users (db w)))
    as [vault_user|] eqn:Hvu.
  - destruct (Qlt_bool 0 (balance vault_user)) eqn:Hpos; [|contradiction].
    destruct Hin as [[= <- <-]|[]].
    split; [now apply Qlt_bool_true|].
    exists vault, vault_user. repeat split; assumption.
  - destruct (Qlt_bool 0 0) eqn:Hpos; [|contradiction].
    apply Qlt_bool_true in Hpos. now apply Qlt_irrefl in Hpos.
Qed.

(** X25: [mobile_error_info] answers with the code it was asked about, known or
    not. *)
Theorem mobile_error_info_echoes_code (code : string) :
  fst (mobile_error_info code) = code.
Proof.
  unfold mobile_error_info.
  destruct (find _ mobile_errors) as [kv|] eqn:E; [|reflexivity].
  apply find_some in E. destruct E as [Hin Heq].
  apply String.eqb_eq in Heq. rewrite <- Heq.
  unfold mobile_errors in Hin. simpl in Hin.
  repeat (destruct Hin as [<-|Hin]; [reflexivity|]). contradiction.
Qed.



(* ================================================================== *)
(** ** A deposit and its withdrawal *)



